(** * hookfs: the hook interception layer over a loopback filesystem

    A shallow embedding of [hook.go], [fs.go] and [file.go], and the
    properties of the interception protocol proved about it.

    - The hook and the delegate (go-fuse's loopback filesystem and its files)
      are foreign code: each of their methods is a transformer of the outside
      [World] (the underlying directory tree, kernel objects, whatever state a
      hook keeps).  A foreign method is taken to return: one that panics or
      blocks is outside the model.
    - A wrapper method is a computation in the monad [M]: it threads the
      [World], may stop the process ([log.Fatal]) or panic ([log.Panic]), and
      journals every call it makes to the hook, to the delegate and to the
      logger, in order, with what the call returned.  The fields attached to
      a log entry are not kept.
    - Go's early [return] inside [if prehooked] is the [then] branch of the
      corresponding test; the two [if hookEnabled] blocks of a method are one
      match on the type assertion, whose [None] branch is the bare delegate
      call.
    - A Go slice is modelled by its contents, the nil slice by [[]]; a pointer
      or an interface value that may be nil is an [option] (a [nodefs.File])
      or comes with a test for nil (a [fuse.ReadResult]); integers are [Z],
      and only the one narrowing conversion of the code, [uint32(flags)],
      wraps.
    - Go's run-time panics are part of the model where the wrappers' own code
      can raise them: a method called on a nil [*hookFile], on a nil
      [nodefs.File] or on a nil [fuse.ReadResult], and [make] with a negative
      length.  They end the method in [Panicked] and log nothing.
    - Formatting a log entry prints its fields, which may call [String] on
      the wrapper, the delegate and the hook; that is left to the logger and
      is not modelled.
    - [hook.go] comes in two revisions.  [fs.go] is written against the one
      whose After methods take the delegate's return code; [file.go], for its
      attribute and lock methods, against the one whose After methods take
      the context only.  Each call site is modelled with the interface it is
      written against.
    - [String], [SetDebug], [SetInode], [InnerFile] and [Serve] only forward or
      format and consult no hook; they are left out. *)

From Stdlib Require Import List String ZArith Bool Lia.
From Stdlib Require Import Strings.Byte.
Import ListNotations.

Set Implicit Arguments.

(** ** go-fuse: statuses and foreign types *)

(** [fuse.Status] is an [int32]; [fuse.OK] is 0. *)
Definition Status : Type := Z.

Definition OK : Status := 0%Z.

(** What go-fuse and the operating system provide.  [Err] are the non-nil
    values of Go's [error]; [ToStatus] is [fuse.ToStatus].  [ReadResult] are
    the values of the interface [fuse.ReadResult], the nil one among them:
    [rr_nil] tells it; [ReadResultData] is [fuse.ReadResultData], and
    [rr_Size] and [rr_Bytes] are the [Size] and [Bytes] methods of a result
    that is not nil. *)
Class Fuse : Type := {
  World : Type;
  HookContext : Type;
  Err : Type;
  Attr : Type;
  FuseContext : Type;
  FileLock : Type;
  Time : Type;
  StatfsOut : Type;
  DirEntry : Type;
  PathNodeFs : Type;
  ReadResult : Type;
  ReadResultData : list byte -> ReadResult;
  rr_nil : ReadResult -> bool;
  rr_Size : ReadResult -> Z;
  rr_Bytes : ReadResult -> list byte -> World -> (list byte * Status) * World;
  ToStatus : option Err -> Status
}.

Section Foreign.
Context {F : Fuse}.

(** Go's [error]: nil or a value. *)
Definition error : Type := option Err.

(** A call into foreign code. *)
Definition Eff (A : Type) : Type := World -> A * World.

End Foreign.

(** ** nodefs.File: the delegate's open file *)

Module nodefs.
Section WithFuse.
Context {F : Fuse}.

(** The methods of a file object. *)
Record Methods : Type := {
  Read : list byte -> Z -> Eff (ReadResult * Status);
  Write : list byte -> Z -> Eff (Z * Status);
  Flush : Eff Status;
  Release : Eff unit;
  Fsync : Z -> Eff Status;
  Truncate : Z -> Eff Status;
  GetAttr : option Attr -> Eff Status;
  Chown : Z -> Z -> Eff Status;
  Chmod : Z -> Eff Status;
  Utimens : option Time -> option Time -> Eff Status;
  Allocate : Z -> Z -> Z -> Eff Status;
  GetLk : Z -> option FileLock -> Z -> option FileLock -> Eff Status;
  SetLk : Z -> option FileLock -> Z -> Eff Status;
  SetLkw : Z -> option FileLock -> Z -> Eff Status
}.

(** A value of the interface [nodefs.File]: nil, or a file object. *)
Definition File : Type := option Methods.

End WithFuse.
End nodefs.

(** ** pathfs.FileSystem: the delegate filesystem *)

Module pathfs.
Section WithFuse.
Context {F : Fuse}.

Record FileSystem : Type := {
  GetAttr : string -> option FuseContext -> Eff (option Attr * Status);
  Chmod : string -> Z -> option FuseContext -> Eff Status;
  Chown : string -> Z -> Z -> option FuseContext -> Eff Status;
  Utimens : string -> option Time -> option Time -> option FuseContext -> Eff Status;
  Truncate : string -> Z -> option FuseContext -> Eff Status;
  Access : string -> Z -> option FuseContext -> Eff Status;
  Link : string -> string -> option FuseContext -> Eff Status;
  Mkdir : string -> Z -> option FuseContext -> Eff Status;
  Mknod : string -> Z -> Z -> option FuseContext -> Eff Status;
  Rename : string -> string -> option FuseContext -> Eff Status;
  Rmdir : string -> option FuseContext -> Eff Status;
  Unlink : string -> option FuseContext -> Eff Status;
  GetXAttr : string -> string -> option FuseContext -> Eff (list byte * Status);
  ListXAttr : string -> option FuseContext -> Eff (list string * Status);
  RemoveXAttr : string -> string -> option FuseContext -> Eff Status;
  SetXAttr : string -> string -> list byte -> Z -> option FuseContext -> Eff Status;
  OnMount : option PathNodeFs -> Eff unit;
  OnUnmount : Eff unit;
  Open : string -> Z -> option FuseContext -> Eff (nodefs.File * Status);
  Create : string -> Z -> Z -> option FuseContext -> Eff (nodefs.File * Status);
  OpenDir : string -> option FuseContext -> Eff (list DirEntry * Status);
  Symlink : string -> string -> option FuseContext -> Eff Status;
  Readlink : string -> option FuseContext -> Eff (string * Status);
  StatFs : string -> Eff (option StatfsOut)
}.

End WithFuse.
End pathfs.

(** ** hook.go: the hook interfaces

    Every interface is a pair of methods; a hook value may implement any
    subset of them. *)

Section HookInterfaces.
Context {F : Fuse}.

Record HookWithInit : Type := {
  Init : Eff error
}.

Record HookOnOpen : Type := {
  PreOpen : string -> Z -> Eff (bool * HookContext * error);
  PostOpen : Z -> HookContext -> Eff (bool * error)
}.

Record HookOnRead : Type := {
  PreRead : string -> Z -> Z -> Eff (list byte * bool * HookContext * error);
  PostRead : Z -> list byte -> HookContext -> Eff (list byte * bool * error)
}.

Record HookOnWrite : Type := {
  PreWrite : string -> list byte -> Z -> Eff (bool * HookContext * error);
  PostWrite : Z -> HookContext -> Eff (bool * error)
}.

Record HookOnMkdir : Type := {
  PreMkdir : string -> Z -> Eff (bool * HookContext * error);
  PostMkdir : Z -> HookContext -> Eff (bool * error)
}.

Record HookOnRmdir : Type := {
  PreRmdir : string -> Eff (bool * HookContext * error);
  PostRmdir : Z -> HookContext -> Eff (bool * error)
}.

Record HookOnOpenDir : Type := {
  PreOpenDir : string -> Eff (bool * HookContext * error);
  PostOpenDir : Z -> HookContext -> Eff (bool * error)
}.

Record HookOnFsync : Type := {
  PreFsync : string -> Z -> Eff (bool * HookContext * error);
  PostFsync : Z -> HookContext -> Eff (bool * error)
}.

Record HookOnFlush : Type := {
  PreFlush : string -> Eff (bool * HookContext * error);
  PostFlush : Z -> HookContext -> Eff (bool * error)
}.

Record HookOnRelease : Type := {
  PreRelease : string -> Eff (bool * HookContext);
  PostRelease : HookContext -> Eff bool
}.

Record HookOnTruncate : Type := {
  PreTruncate : string -> Z -> Eff (bool * HookContext * error);
  PostTruncate : Z -> HookContext -> Eff (bool * error)
}.

Record HookOnGetAttr : Type := {
  PreGetAttr : string -> Eff (bool * HookContext * error);
  PostGetAttr : Z -> HookContext -> Eff (bool * error)
}.

Record HookOnChown : Type := {
  PreChown : string -> Z -> Z -> Eff (bool * HookContext * error);
  PostChown : Z -> HookContext -> Eff (bool * error)
}.

Record HookOnChmod : Type := {
  PreChmod : string -> Z -> Eff (bool * HookContext * error);
  PostChmod : Z -> HookContext -> Eff (bool * error)
}.

Record HookOnUtimens : Type := {
  PreUtimens : string -> option Time -> option Time -> Eff (bool * HookContext * error);
  PostUtimens : Z -> HookContext -> Eff (bool * error)
}.

Record HookOnStatFs : Type := {
  PreStatFs : string -> Eff (bool * HookContext * error);
  PostStatFs : HookContext -> Eff (bool * error)
}.

Record HookOnReadlink : Type := {
  PreReadlink : string -> Eff (bool * HookContext * error);
  PostReadlink : Z -> HookContext -> Eff (bool * error)
}.

Record HookOnSymlink : Type := {
  PreSymlink : string -> string -> Eff (bool * HookContext * error);
  PostSymlink : Z -> HookContext -> Eff (bool * error)
}.

Record HookOnCreate : Type := {
  PreCreate : string -> Z -> Z -> Eff (bool * HookContext * error);
  PostCreate : Z -> HookContext -> Eff (bool * error)
}.

Record HookOnAccess : Type := {
  PreAccess : string -> Z -> Eff (bool * HookContext * error);
  PostAccess : Z -> HookContext -> Eff (bool * error)
}.

Record HookOnLink : Type := {
  PreLink : string -> string -> Eff (bool * HookContext * error);
  PostLink : Z -> HookContext -> Eff (bool * error)
}.

Record HookOnMknod : Type := {
  PreMknod : string -> Z -> Z -> Eff (bool * HookContext * error);
  PostMknod : Z -> HookContext -> Eff (bool * error)
}.

Record HookOnRename : Type := {
  PreRename : string -> string -> Eff (bool * HookContext * error);
  PostRename : Z -> HookContext -> Eff (bool * error)
}.

Record HookOnUnlink : Type := {
  PreUnlink : string -> Eff (bool * HookContext * error);
  PostUnlink : Z -> HookContext -> Eff (bool * error)
}.

Record HookOnGetXAttr : Type := {
  PreGetXAttr : string -> string -> Eff (bool * HookContext * error);
  PostGetXAttr : Z -> HookContext -> Eff (bool * error)
}.

Record HookOnListXAttr : Type := {
  PreListXAttr : string -> Eff (bool * HookContext * error);
  PostListXAttr : Z -> HookContext -> Eff (bool * error)
}.

Record HookOnRemoveXAttr : Type := {
  PreRemoveXAttr : string -> string -> Eff (bool * HookContext * error);
  PostRemoveXAttr : Z -> HookContext -> Eff (bool * error)
}.

Record HookOnSetXAttr : Type := {
  PreSetXAttr : string -> string -> list byte -> Z -> Eff (bool * HookContext * error);
  PostSetXAttr : Z -> HookContext -> Eff (bool * error)
}.

End HookInterfaces.

(** The revision of [hook.go] that [file.go] is written against: the
    handle-level attribute and lock interfaces, whose After methods take the
    context only (and whose [PreGetAttr] also takes the out pointer). *)

Module handle.
Section WithFuse.
Context {F : Fuse}.

Record HookOnTruncate : Type := {
  PreTruncate : string -> Z -> Eff (bool * HookContext * error);
  PostTruncate : HookContext -> Eff (bool * error)
}.

Record HookOnGetAttr : Type := {
  PreGetAttr : string -> option Attr -> Eff (bool * HookContext * error);
  PostGetAttr : HookContext -> Eff (bool * error)
}.

Record HookOnChown : Type := {
  PreChown : string -> Z -> Z -> Eff (bool * HookContext * error);
  PostChown : HookContext -> Eff (bool * error)
}.

Record HookOnChmod : Type := {
  PreChmod : string -> Z -> Eff (bool * HookContext * error);
  PostChmod : HookContext -> Eff (bool * error)
}.

Record HookOnUtimens : Type := {
  PreUtimens : string -> option Time -> option Time -> Eff (bool * HookContext * error);
  PostUtimens : HookContext -> Eff (bool * error)
}.

Record HookOnAllocate : Type := {
  PreAllocate : string -> Z -> Z -> Z -> Eff (bool * HookContext * error);
  PostAllocate : HookContext -> Eff (bool * error)
}.

Record HookOnGetLk : Type := {
  PreGetLk : string -> Z -> option FileLock -> Z -> option FileLock -> Eff (bool * HookContext * error);
  PostGetLk : HookContext -> Eff (bool * error)
}.

Record HookOnSetLk : Type := {
  PreSetLk : string -> Z -> option FileLock -> Z -> Eff (bool * HookContext * error);
  PostSetLk : HookContext -> Eff (bool * error)
}.

Record HookOnSetLkw : Type := {
  PreSetLkw : string -> Z -> option FileLock -> Z -> Eff (bool * HookContext * error);
  PostSetLkw : HookContext -> Eff (bool * error)
}.

End WithFuse.
End handle.

(** ** Hook values and type assertions

    [Hook] is [interface{}]: nil, or a value whose dynamic type implements
    some of the interfaces.  [type_assert] is [h.hook.(HookOnX)]: it yields
    the interface view when the value implements it, and fails on nil. *)

Section HookValues.
Context {F : Fuse}.

Record HookValue : Type := {
  asHookWithInit : option HookWithInit;
  asHookOnOpen : option HookOnOpen;
  asHookOnRead : option HookOnRead;
  asHookOnWrite : option HookOnWrite;
  asHookOnMkdir : option HookOnMkdir;
  asHookOnRmdir : option HookOnRmdir;
  asHookOnOpenDir : option HookOnOpenDir;
  asHookOnFsync : option HookOnFsync;
  asHookOnFlush : option HookOnFlush;
  asHookOnRelease : option HookOnRelease;
  asHookOnTruncate : option HookOnTruncate;
  asHookOnGetAttr : option HookOnGetAttr;
  asHookOnChown : option HookOnChown;
  asHookOnChmod : option HookOnChmod;
  asHookOnUtimens : option HookOnUtimens;
  asHookOnStatFs : option HookOnStatFs;
  asHookOnReadlink : option HookOnReadlink;
  asHookOnSymlink : option HookOnSymlink;
  asHookOnCreate : option HookOnCreate;
  asHookOnAccess : option HookOnAccess;
  asHookOnLink : option HookOnLink;
  asHookOnMknod : option HookOnMknod;
  asHookOnRename : option HookOnRename;
  asHookOnUnlink : option HookOnUnlink;
  asHookOnGetXAttr : option HookOnGetXAttr;
  asHookOnListXAttr : option HookOnListXAttr;
  asHookOnRemoveXAttr : option HookOnRemoveXAttr;
  asHookOnSetXAttr : option HookOnSetXAttr;
  asHandleHookOnTruncate : option handle.HookOnTruncate;
  asHandleHookOnGetAttr : option handle.HookOnGetAttr;
  asHandleHookOnChown : option handle.HookOnChown;
  asHandleHookOnChmod : option handle.HookOnChmod;
  asHandleHookOnUtimens : option handle.HookOnUtimens;
  asHandleHookOnAllocate : option handle.HookOnAllocate;
  asHandleHookOnGetLk : option handle.HookOnGetLk;
  asHandleHookOnSetLk : option handle.HookOnSetLk;
  asHandleHookOnSetLkw : option handle.HookOnSetLkw
}.

Definition Hook : Type := option HookValue.

Definition type_assert {I : Type} (as_I : HookValue -> option I) (hook : Hook) : option I :=
  match hook with
  | Some v => as_I v
  | None => None
  end.

End HookValues.

(** ** The journal of a request *)

(** The wrapper methods of [fs.go] and [file.go]. *)
Inductive Method : Type :=
| fs_GetAttr | fs_Chmod | fs_Chown | fs_Utimens | fs_Truncate | fs_Access
| fs_Link | fs_Mkdir | fs_Mknod | fs_Rename | fs_Rmdir | fs_Unlink
| fs_GetXAttr | fs_ListXAttr | fs_RemoveXAttr | fs_SetXAttr
| fs_OnMount | fs_OnUnmount
| fs_Open | fs_Create | fs_OpenDir | fs_Symlink | fs_Readlink | fs_StatFs
| file_Read | file_Write | file_Flush | file_Release | file_Fsync
| file_Truncate | file_GetAttr | file_Chown | file_Chmod | file_Utimens
| file_Allocate | file_GetLk | file_SetLk | file_SetLkw.

(** logrus levels. *)
Inductive Level : Type :=
| PanicLevel | FatalLevel | ErrorLevel | WarnLevel | InfoLevel | DebugLevel | TraceLevel.

(** How a wrapper method ends: it returns, the process exits, or it panics. *)
Inductive Result (A : Type) : Type :=
| Ret (a : A)
| Exited
| Panicked.

Arguments Exited {A}.
Arguments Panicked {A}.

Section Journal.
Context {F : Fuse}.

(** What a hook method answered: the [hooked] flag, the error when the method
    has one, the bytes when it is a read hook. *)
Inductive Answer : Type :=
| Verdict (hooked : bool) (err : error)
| VerdictData (buf : list byte) (hooked : bool) (err : error)
| VerdictFlag (hooked : bool).

Definition hooked (a : Answer) : bool :=
  match a with
  | Verdict b _ | VerdictData _ b _ | VerdictFlag b => b
  end.

Definition answer_err (a : Answer) : error :=
  match a with
  | Verdict _ e | VerdictData _ _ e => e
  | VerdictFlag _ => None
  end.

Definition answer_buf (a : Answer) : list byte :=
  match a with
  | VerdictData b _ _ => b
  | _ => []
  end.

(** A [nodefs.File] value as the transport sees it: nil, a file of the
    delegate, or a [*hookFile] (named by its handle). *)
Inductive FileRef : Type :=
| NilFile
| LowerFile (f : nodefs.File)
| HookFile (fh : nat).

(** What a filesystem or file method returns, by shape. *)
Inductive Reply : Type :=
| RStatus (code : Status)
| RAttr (attr : option Attr) (code : Status)
| RData (data : list byte) (code : Status)
| RNames (names : list string) (code : Status)
| RLink (target : string) (code : Status)
| RFile (f : FileRef) (code : Status)
| REntries (ents : list DirEntry) (code : Status)
| RStatFs (out : option StatfsOut)
| RRead (rr : ReadResult) (code : Status)
| RWritten (n : Z) (code : Status)
| RVoid.

Inductive Event : Type :=
| EvLog (lvl : Level) (msg : string)
| EvLogErr (lvl : Level) (e : Err)
| EvInit (e : error)
| EvPre (m : Method) (a : Answer)
| EvLower (m : Method) (r : Reply)
| EvBytes (data : list byte) (code : Status)
| EvPost (m : Method) (a : Answer).

(** ** The monad of wrapper methods *)

Definition M (A : Type) : Type := World -> Result A * World * list Event.

Definition ret {A : Type} (a : A) : M A := fun w => (Ret a, w, []).

Definition bind {A B : Type} (m : M A) (k : A -> M B) : M B :=
  fun w =>
    match m w with
    | (Ret a, w1, t1) => let '(r, w2, t2) := k a w1 in (r, w2, t1 ++ t2)
    | (Exited, w1, t1) => (Exited, w1, t1)
    | (Panicked, w1, t1) => (Panicked, w1, t1)
    end.

Definition emit (e : Event) : M unit := fun w => (Ret tt, w, [e]).

(** A foreign call, journalled with what it returned. *)
Definition call {X : Type} (ev : X -> Event) (f : Eff X) : M X :=
  fun w => let (x, w') := f w in (Ret x, w', [ev x]).

Definition callPre {X : Type} (m : Method) (view : X -> Answer) (f : Eff X) : M X :=
  call (fun x => EvPre m (view x)) f.

Definition callPost {X : Type} (m : Method) (view : X -> Answer) (f : Eff X) : M X :=
  call (fun x => EvPost m (view x)) f.

Definition callLower {X : Type} (m : Method) (view : X -> Reply) (f : Eff X) : M X :=
  call (fun x => EvLower m (view x)) f.

(** A run-time panic of Go: the method stops; nothing is logged. *)
Definition panic {A : Type} : M A := fun w => (Panicked, w, []).

(** A method called on a [nodefs.File]: on the nil file it panics. *)
Definition callFile {X : Type} (m : Method) (view : X -> Reply) (file : nodefs.File)
    (f : nodefs.Methods -> Eff X) : M X :=
  match file with
  | Some object => callLower m view (f object)
  | None => panic
  end.

(** The shapes of hook answers. *)
Definition pre3 (x : bool * HookContext * error) : Answer :=
  let '(hooked, _, err) := x in Verdict hooked err.

Definition pre4 (x : list byte * bool * HookContext * error) : Answer :=
  let '(buf, hooked, _, err) := x in VerdictData buf hooked err.

Definition pre2 (x : bool * HookContext) : Answer :=
  let '(hooked, _) := x in VerdictFlag hooked.

Definition post2 (x : bool * error) : Answer :=
  let '(hooked, err) := x in Verdict hooked err.

Definition post3 (x : list byte * bool * error) : Answer :=
  let '(buf, hooked, err) := x in VerdictData buf hooked err.

Definition rvoid (_ : unit) : Reply := RVoid.

Definition rlowerfile (x : nodefs.File * Status) : Reply :=
  let '(f, code) := x in RFile (LowerFile f) code.

End Journal.

Declare Scope monad_scope.
Delimit Scope monad_scope with monad.

Notation "x <- c1 ; c2" := (bind c1 (fun x => c2))
  (at level 61, c1 at next level, right associativity) : monad_scope.
Notation "' pat <- c1 ; c2" := (bind c1 (fun x => match x with pat => c2 end))
  (at level 61, pat pattern, c1 at next level, right associativity) : monad_scope.
Notation "c1 ;; c2" := (bind c1 (fun _ => c2))
  (at level 61, right associativity) : monad_scope.

(** ** logrus *)

Module log.
Section WithFuse.
Context {F : Fuse}.

Definition Trace (msg : string) : M unit := emit (EvLog TraceLevel msg).

Definition Debug (msg : string) : M unit := emit (EvLog DebugLevel msg).

Definition Warn (msg : string) : M unit := emit (EvLog WarnLevel msg).

Definition Error (e : Err) : M unit := emit (EvLogErr ErrorLevel e).

(** [Fatal] logs and then calls [os.Exit(1)]. *)
Definition Fatal {A : Type} (msg : string) : M A :=
  fun w => (Exited, w, [EvLog FatalLevel msg]).

(** [Panic] logs and then panics. *)
Definition Panic {A : Type} (msg : string) : M A :=
  fun w => (Panicked, w, [EvLog PanicLevel msg]).

End WithFuse.
End log.

(** ** file.go: the handle-scope wrapper *)

Module hookFile.
Section WithFuse.
Context {F : Fuse}.
Local Open Scope monad_scope.
Local Open Scope string_scope.

Record t : Type := {
  file : nodefs.File;
  name : string;
  hook : Hook
}.

(** [make([]byte, n)]: it panics when [n] is negative. *)
Definition make (n : Z) : M (list byte) :=
  if Z.ltb n 0 then panic else ret (repeat x00 (Z.to_nat n)).

(** [lowerRR.Size()]: it panics on the nil result. *)
Definition Size (lowerRR : ReadResult) : M Z :=
  if rr_nil lowerRR then panic else ret (rr_Size lowerRR).

Definition Read (h : t) (dest : list byte) (off : Z) : M (ReadResult * Status) :=
  let hookEnabled := type_assert asHookOnRead h.(hook) in
  log.Trace "f.Read";;
  match hookEnabled with
  | Some hook =>
      '(prehookBuf, prehooked, prehookCtx, prehookErr) <-
        callPre file_Read pre4 (PreRead hook h.(name) (Z.of_nat (List.length dest)) off);
      if prehooked then
        log.Debug "Read: Prehooked";;
        ret (ReadResultData prehookBuf, ToStatus prehookErr)
      else
        '(lowerRR, lowerCode) <-
          callFile file_Read (uncurry RRead) h.(file) (fun f => nodefs.Read f dest off);
        size <- Size lowerRR;
        buf <- make size;
        '(lowerRRBuf, lowerRRBufStatus) <-
          call (uncurry EvBytes) (rr_Bytes lowerRR buf);
        (if Z.eqb lowerRRBufStatus OK then ret tt
         else log.Panic "lowerRR.Bytes() should not cause an error");;
        '(posthookBuf, posthooked, posthookErr) <-
          callPost file_Read post3 (PostRead hook lowerCode lowerRRBuf prehookCtx);
        if posthooked then
          (if Nat.eqb (List.length posthookBuf) (List.length lowerRRBuf) then ret tt
           else log.Warn "Read: Posthooked, but posthookBuf length != lowerrRRBuf length. You may get a strange behavior.");;
          log.Debug "Read: Posthooked";;
          ret (ReadResultData posthookBuf, ToStatus posthookErr)
        else ret (lowerRR, lowerCode)
  | None => callFile file_Read (uncurry RRead) h.(file) (fun f => nodefs.Read f dest off)
  end.

Definition Write (h : t) (data : list byte) (off : Z) : M (Z * Status) :=
  let hookEnabled := type_assert asHookOnWrite h.(hook) in
  log.Trace "f.Write";;
  match hookEnabled with
  | Some hook =>
      '(prehooked, prehookCtx, prehookErr) <-
        callPre file_Write pre3 (PreWrite hook h.(name) data off);
      if prehooked then
        log.Debug "Write: Prehooked";;
        ret (0%Z, ToStatus prehookErr)
      else
        '(lowerWritten, lowerCode) <-
          callFile file_Write (uncurry RWritten) h.(file) (fun f => nodefs.Write f data off);
        '(posthooked, posthookErr) <-
          callPost file_Write post2 (PostWrite hook lowerCode prehookCtx);
        if posthooked then
          log.Debug "Write: Posthooked";;
          ret (0%Z, ToStatus posthookErr)
        else ret (lowerWritten, lowerCode)
  | None => callFile file_Write (uncurry RWritten) h.(file) (fun f => nodefs.Write f data off)
  end.

Definition Flush (h : t) : M Status :=
  let hookEnabled := type_assert asHookOnFlush h.(hook) in
  log.Trace "f.Flush";;
  match hookEnabled with
  | Some hook =>
      '(prehooked, prehookCtx, prehookErr) <-
        callPre file_Flush pre3 (PreFlush hook h.(name));
      if prehooked then
        log.Debug "Flush: Prehooked";;
        ret (ToStatus prehookErr)
      else
        lowerCode <- callFile file_Flush RStatus h.(file) (fun f => nodefs.Flush f);
        '(posthooked, posthookErr) <-
          callPost file_Flush post2 (PostFlush hook lowerCode prehookCtx);
        if posthooked then
          log.Debug "Flush: Posthooked";;
          ret (ToStatus posthookErr)
        else ret lowerCode
  | None => callFile file_Flush RStatus h.(file) (fun f => nodefs.Flush f)
  end.

Definition Release (h : t) : M unit :=
  let hookEnabled := type_assert asHookOnRelease h.(hook) in
  log.Trace "f.Release";;
  match hookEnabled with
  | Some hook =>
      '(prehooked, prehookCtx) <-
        callPre file_Release pre2 (PreRelease hook h.(name));
      (if prehooked then log.Debug "Release: Prehooked" else ret tt);;
      callFile file_Release rvoid h.(file) (fun f => nodefs.Release f);;
      posthooked <- callPost file_Release VerdictFlag (PostRelease hook prehookCtx);
      if posthooked then log.Debug "Release: Posthooked" else ret tt
  | None => callFile file_Release rvoid h.(file) (fun f => nodefs.Release f)
  end.

(** [uint32(flags)] *)
Definition uint32 (n : Z) : Z := Z.modulo n (2 ^ 32).

Definition Fsync (h : t) (flags : Z) : M Status :=
  let hookEnabled := type_assert asHookOnFsync h.(hook) in
  log.Trace "f.Fsync";;
  match hookEnabled with
  | Some hook =>
      '(prehooked, prehookCtx, prehookErr) <-
        callPre file_Fsync pre3 (PreFsync hook h.(name) (uint32 flags));
      if prehooked then
        log.Debug "Fsync: Prehooked";;
        ret (ToStatus prehookErr)
      else
        lowerCode <- callFile file_Fsync RStatus h.(file) (fun f => nodefs.Fsync f flags);
        '(posthooked, posthookErr) <-
          callPost file_Fsync post2 (PostFsync hook lowerCode prehookCtx);
        if posthooked then
          log.Debug "Fsync: Posthooked";;
          ret (ToStatus posthookErr)
        else ret lowerCode
  | None => callFile file_Fsync RStatus h.(file) (fun f => nodefs.Fsync f flags)
  end.

Definition Truncate (h : t) (size : Z) : M Status :=
  let hookEnabled := type_assert asHandleHookOnTruncate h.(hook) in
  log.Trace "f.Truncate";;
  match hookEnabled with
  | Some hook =>
      '(prehooked, prehookCtx, prehookErr) <-
        callPre file_Truncate pre3 (handle.PreTruncate hook h.(name) size);
      if prehooked then
        log.Debug "Truncate: Prehooked";;
        ret (ToStatus prehookErr)
      else
        lowerCode <- callFile file_Truncate RStatus h.(file) (fun f => nodefs.Truncate f size);
        '(posthooked, posthookErr) <-
          callPost file_Truncate post2 (handle.PostTruncate hook prehookCtx);
        if posthooked then
          log.Debug "Truncate: Posthooked";;
          ret (ToStatus posthookErr)
        else ret lowerCode
  | None => callFile file_Truncate RStatus h.(file) (fun f => nodefs.Truncate f size)
  end.

Definition GetAttr (h : t) (out : option Attr) : M Status :=
  let hookEnabled := type_assert asHandleHookOnGetAttr h.(hook) in
  log.Trace "f.GetAttr";;
  match hookEnabled with
  | Some hook =>
      '(prehooked, prehookCtx, prehookErr) <-
        callPre file_GetAttr pre3 (handle.PreGetAttr hook h.(name) out);
      if prehooked then
        log.Debug "GetAttr: Prehooked";;
        ret (ToStatus prehookErr)
      else
        lowerCode <- callFile file_GetAttr RStatus h.(file) (fun f => nodefs.GetAttr f out);
        '(posthooked, posthookErr) <-
          callPost file_GetAttr post2 (handle.PostGetAttr hook prehookCtx);
        if posthooked then
          log.Debug "GetAttr: Posthooked";;
          ret (ToStatus posthookErr)
        else ret lowerCode
  | None => callFile file_GetAttr RStatus h.(file) (fun f => nodefs.GetAttr f out)
  end.

Definition Chown (h : t) (uid gid : Z) : M Status :=
  let hookEnabled := type_assert asHandleHookOnChown h.(hook) in
  log.Trace "f.Chown";;
  match hookEnabled with
  | Some hook =>
      '(prehooked, prehookCtx, prehookErr) <-
        callPre file_Chown pre3 (handle.PreChown hook h.(name) uid gid);
      if prehooked then
        log.Debug "Chown: Prehooked";;
        ret (ToStatus prehookErr)
      else
        lowerCode <- callFile file_Chown RStatus h.(file) (fun f => nodefs.Chown f uid gid);
        '(posthooked, posthookErr) <-
          callPost file_Chown post2 (handle.PostChown hook prehookCtx);
        if posthooked then
          log.Debug "Chown: Posthooked";;
          ret (ToStatus posthookErr)
        else ret lowerCode
  | None => callFile file_Chown RStatus h.(file) (fun f => nodefs.Chown f uid gid)
  end.

Definition Chmod (h : t) (perms : Z) : M Status :=
  let hookEnabled := type_assert asHandleHookOnChmod h.(hook) in
  log.Trace "f.Chmod";;
  match hookEnabled with
  | Some hook =>
      '(prehooked, prehookCtx, prehookErr) <-
        callPre file_Chmod pre3 (handle.PreChmod hook h.(name) perms);
      if prehooked then
        log.Debug "Chmod: Prehooked";;
        ret (ToStatus prehookErr)
      else
        lowerCode <- callFile file_Chmod RStatus h.(file) (fun f => nodefs.Chmod f perms);
        '(posthooked, posthookErr) <-
          callPost file_Chmod post2 (handle.PostChmod hook prehookCtx);
        if posthooked then
          log.Debug "Chmod: Posthooked";;
          ret (ToStatus posthookErr)
        else ret lowerCode
  | None => callFile file_Chmod RStatus h.(file) (fun f => nodefs.Chmod f perms)
  end.

Definition Utimens (h : t) (atime mtime : option Time) : M Status :=
  let hookEnabled := type_assert asHandleHookOnUtimens h.(hook) in
  log.Trace "f.Utimens";;
  match hookEnabled with
  | Some hook =>
      '(prehooked, prehookCtx, prehookErr) <-
        callPre file_Utimens pre3 (handle.PreUtimens hook h.(name) atime mtime);
      if prehooked then
        log.Debug "Utimens: Prehooked";;
        ret (ToStatus prehookErr)
      else
        lowerCode <- callFile file_Utimens RStatus h.(file) (fun f => nodefs.Utimens f atime mtime);
        '(posthooked, posthookErr) <-
          callPost file_Utimens post2 (handle.PostUtimens hook prehookCtx);
        if posthooked then
          log.Debug "Utimens: Posthooked";;
          ret (ToStatus posthookErr)
        else ret lowerCode
  | None => callFile file_Utimens RStatus h.(file) (fun f => nodefs.Utimens f atime mtime)
  end.

Definition Allocate (h : t) (off size mode : Z) : M Status :=
  let hookEnabled := type_assert asHandleHookOnAllocate h.(hook) in
  log.Trace "f.Allocate";;
  match hookEnabled with
  | Some hook =>
      '(prehooked, prehookCtx, prehookErr) <-
        callPre file_Allocate pre3 (handle.PreAllocate hook h.(name) off size mode);
      if prehooked then
        log.Debug "Allocate: Prehooked";;
        ret (ToStatus prehookErr)
      else
        lowerCode <- callFile file_Allocate RStatus h.(file) (fun f => nodefs.Allocate f off size mode);
        '(posthooked, posthookErr) <-
          callPost file_Allocate post2 (handle.PostAllocate hook prehookCtx);
        if posthooked then
          log.Debug "Allocate: Posthooked";;
          ret (ToStatus posthookErr)
        else ret lowerCode
  | None => callFile file_Allocate RStatus h.(file) (fun f => nodefs.Allocate f off size mode)
  end.

Definition GetLk (h : t) (owner : Z) (lk : option FileLock) (flags : Z) (out : option FileLock) : M Status :=
  let hookEnabled := type_assert asHandleHookOnGetLk h.(hook) in
  log.Trace "f.GetLk";;
  match hookEnabled with
  | Some hook =>
      '(prehooked, prehookCtx, prehookErr) <-
        callPre file_GetLk pre3 (handle.PreGetLk hook h.(name) owner lk flags out);
      if prehooked then
        log.Debug "GetLk: Prehooked";;
        ret (ToStatus prehookErr)
      else
        lowerCode <- callFile file_GetLk RStatus h.(file) (fun f => nodefs.GetLk f owner lk flags out);
        '(posthooked, posthookErr) <-
          callPost file_GetLk post2 (handle.PostGetLk hook prehookCtx);
        if posthooked then
          log.Debug "GetLk: Posthooked";;
          ret (ToStatus posthookErr)
        else ret lowerCode
  | None => callFile file_GetLk RStatus h.(file) (fun f => nodefs.GetLk f owner lk flags out)
  end.

Definition SetLk (h : t) (owner : Z) (lk : option FileLock) (flags : Z) : M Status :=
  let hookEnabled := type_assert asHandleHookOnSetLk h.(hook) in
  log.Trace "f.SetLk";;
  match hookEnabled with
  | Some hook =>
      '(prehooked, prehookCtx, prehookErr) <-
        callPre file_SetLk pre3 (handle.PreSetLk hook h.(name) owner lk flags);
      if prehooked then
        log.Debug "SetLk: Prehooked";;
        ret (ToStatus prehookErr)
      else
        lowerCode <- callFile file_SetLk RStatus h.(file) (fun f => nodefs.SetLk f owner lk flags);
        '(posthooked, posthookErr) <-
          callPost file_SetLk post2 (handle.PostSetLk hook prehookCtx);
        if posthooked then
          log.Debug "SetLk: Posthooked";;
          ret (ToStatus posthookErr)
        else ret lowerCode
  | None => callFile file_SetLk RStatus h.(file) (fun f => nodefs.SetLk f owner lk flags)
  end.

Definition SetLkw (h : t) (owner : Z) (lk : option FileLock) (flags : Z) : M Status :=
  let hookEnabled := type_assert asHandleHookOnSetLkw h.(hook) in
  log.Trace "f.SetLkw";;
  match hookEnabled with
  | Some hook =>
      '(prehooked, prehookCtx, prehookErr) <-
        callPre file_SetLkw pre3 (handle.PreSetLkw hook h.(name) owner lk flags);
      if prehooked then
        log.Debug "SetLkw: Prehooked";;
        ret (ToStatus prehookErr)
      else
        lowerCode <- callFile file_SetLkw RStatus h.(file) (fun f => nodefs.SetLkw f owner lk flags);
        '(posthooked, posthookErr) <-
          callPost file_SetLkw post2 (handle.PostSetLkw hook prehookCtx);
        if posthooked then
          log.Debug "SetLkw: Posthooked";;
          ret (ToStatus posthookErr)
        else ret lowerCode
  | None => callFile file_SetLkw RStatus h.(file) (fun f => nodefs.SetLkw f owner lk flags)
  end.

End WithFuse.
End hookFile.

Section NewHookFile.
Context {F : Fuse}.
Local Open Scope monad_scope.
Local Open Scope string_scope.

Definition newHookFile (file : nodefs.File) (name : string) (hook : Hook) : M (hookFile.t * error) :=
  log.Debug "Hooking a file";;
  let hookfile := {| hookFile.file := file; hookFile.name := name; hookFile.hook := hook |} in
  ret (hookfile, None).

End NewHookFile.

(** ** fs.go: the filesystem-scope wrapper *)

Module HookFs.
Section WithFuse.
Context {F : Fuse}.
Local Open Scope monad_scope.
Local Open Scope string_scope.

Record t : Type := {
  Original : string;
  Mountpoint : string;
  FsName : string;
  fs : pathfs.FileSystem;
  hook : Hook
}.

Definition GetAttr (h : t) (name : string) (context : option FuseContext) : M (option Attr * Status) :=
  let hookEnabled := type_assert asHookOnGetAttr h.(hook) in
  log.Trace "fs.GetAttr";;
  match hookEnabled with
  | Some hook =>
      '(prehooked, prehookCtx, prehookErr) <-
        callPre fs_GetAttr pre3 (PreGetAttr hook name);
      if prehooked then
        log.Debug "GetAttr: Prehooked";;
        ret (None, ToStatus prehookErr)
      else
        '(attr, lowerCode) <-
          callLower fs_GetAttr (uncurry RAttr) (pathfs.GetAttr h.(fs) name context);
        '(posthooked, posthookErr) <-
          callPost fs_GetAttr post2 (PostGetAttr hook lowerCode prehookCtx);
        if posthooked then
          log.Debug "GetAttr: Posthooked";;
          ret (attr, ToStatus posthookErr)
        else ret (attr, lowerCode)
  | None => callLower fs_GetAttr (uncurry RAttr) (pathfs.GetAttr h.(fs) name context)
  end.

Definition Chmod (h : t) (name : string) (mode : Z) (context : option FuseContext) : M Status :=
  let hookEnabled := type_assert asHookOnChmod h.(hook) in
  log.Trace "fs.Chmod";;
  match hookEnabled with
  | Some hook =>
      '(prehooked, prehookCtx, prehookErr) <-
        callPre fs_Chmod pre3 (PreChmod hook name mode);
      if prehooked then
        log.Debug "Chmod: Prehooked";;
        ret (ToStatus prehookErr)
      else
        lowerCode <- callLower fs_Chmod RStatus (pathfs.Chmod h.(fs) name mode context);
        '(posthooked, posthookErr) <-
          callPost fs_Chmod post2 (PostChmod hook lowerCode prehookCtx);
        if posthooked then
          log.Debug "Chmod: Posthooked";;
          ret (ToStatus posthookErr)
        else ret lowerCode
  | None => callLower fs_Chmod RStatus (pathfs.Chmod h.(fs) name mode context)
  end.

Definition Chown (h : t) (name : string) (uid : Z) (gid : Z) (context : option FuseContext) : M Status :=
  let hookEnabled := type_assert asHookOnChown h.(hook) in
  log.Trace "fs.Chown";;
  match hookEnabled with
  | Some hook =>
      '(prehooked, prehookCtx, prehookErr) <-
        callPre fs_Chown pre3 (PreChown hook name uid gid);
      if prehooked then
        log.Debug "Chown: Prehooked";;
        ret (ToStatus prehookErr)
      else
        lowerCode <- callLower fs_Chown RStatus (pathfs.Chown h.(fs) name uid gid context);
        '(posthooked, posthookErr) <-
          callPost fs_Chown post2 (PostChown hook lowerCode prehookCtx);
        if posthooked then
          log.Debug "Chown: Posthooked";;
          ret (ToStatus posthookErr)
        else ret lowerCode
  | None => callLower fs_Chown RStatus (pathfs.Chown h.(fs) name uid gid context)
  end.

Definition Utimens (h : t) (name : string) (Atime : option Time) (Mtime : option Time) (context : option FuseContext) : M Status :=
  let hookEnabled := type_assert asHookOnUtimens h.(hook) in
  log.Trace "fs.Utimens";;
  match hookEnabled with
  | Some hook =>
      '(prehooked, prehookCtx, prehookErr) <-
        callPre fs_Utimens pre3 (PreUtimens hook name Atime Mtime);
      if prehooked then
        log.Debug "Utimens: Prehooked";;
        ret (ToStatus prehookErr)
      else
        lowerCode <- callLower fs_Utimens RStatus (pathfs.Utimens h.(fs) name Atime Mtime context);
        '(posthooked, posthookErr) <-
          callPost fs_Utimens post2 (PostUtimens hook lowerCode prehookCtx);
        if posthooked then
          log.Debug "Utimens: Posthooked";;
          ret (ToStatus posthookErr)
        else ret lowerCode
  | None => callLower fs_Utimens RStatus (pathfs.Utimens h.(fs) name Atime Mtime context)
  end.

Definition Truncate (h : t) (name : string) (size : Z) (context : option FuseContext) : M Status :=
  let hookEnabled := type_assert asHookOnTruncate h.(hook) in
  log.Trace "fs.Truncate";;
  match hookEnabled with
  | Some hook =>
      '(prehooked, prehookCtx, prehookErr) <-
        callPre fs_Truncate pre3 (PreTruncate hook name size);
      if prehooked then
        log.Debug "Truncate: Prehooked";;
        ret (ToStatus prehookErr)
      else
        lowerCode <- callLower fs_Truncate RStatus (pathfs.Truncate h.(fs) name size context);
        '(posthooked, posthookErr) <-
          callPost fs_Truncate post2 (PostTruncate hook lowerCode prehookCtx);
        if posthooked then
          log.Debug "Truncate: Posthooked";;
          ret (ToStatus posthookErr)
        else ret lowerCode
  | None => callLower fs_Truncate RStatus (pathfs.Truncate h.(fs) name size context)
  end.

Definition Access (h : t) (name : string) (mode : Z) (context : option FuseContext) : M Status :=
  let hookEnabled := type_assert asHookOnAccess h.(hook) in
  log.Trace "fs.Access";;
  match hookEnabled with
  | Some hook =>
      '(prehooked, prehookCtx, prehookErr) <-
        callPre fs_Access pre3 (PreAccess hook name mode);
      if prehooked then
        log.Debug "Access: Prehooked";;
        ret (ToStatus prehookErr)
      else
        lowerCode <- callLower fs_Access RStatus (pathfs.Access h.(fs) name mode context);
        '(posthooked, posthookErr) <-
          callPost fs_Access post2 (PostAccess hook lowerCode prehookCtx);
        if posthooked then
          log.Debug "Access: Posthooked";;
          ret (ToStatus posthookErr)
        else ret lowerCode
  | None => callLower fs_Access RStatus (pathfs.Access h.(fs) name mode context)
  end.

Definition Link (h : t) (oldName : string) (newName : string) (context : option FuseContext) : M Status :=
  let hookEnabled := type_assert asHookOnLink h.(hook) in
  log.Trace "fs.Link";;
  match hookEnabled with
  | Some hook =>
      '(prehooked, prehookCtx, prehookErr) <-
        callPre fs_Link pre3 (PreLink hook oldName newName);
      if prehooked then
        log.Debug "Link: Prehooked";;
        ret (ToStatus prehookErr)
      else
        lowerCode <- callLower fs_Link RStatus (pathfs.Link h.(fs) oldName newName context);
        '(posthooked, posthookErr) <-
          callPost fs_Link post2 (PostLink hook lowerCode prehookCtx);
        if posthooked then
          log.Debug "Link: Posthooked";;
          ret (ToStatus posthookErr)
        else ret lowerCode
  | None => callLower fs_Link RStatus (pathfs.Link h.(fs) oldName newName context)
  end.

Definition Mkdir (h : t) (name : string) (mode : Z) (context : option FuseContext) : M Status :=
  let hookEnabled := type_assert asHookOnMkdir h.(hook) in
  log.Trace "fs.Mkdir";;
  match hookEnabled with
  | Some hook =>
      '(prehooked, prehookCtx, prehookErr) <-
        callPre fs_Mkdir pre3 (PreMkdir hook name mode);
      if prehooked then
        log.Debug "Mkdir: Prehooked";;
        (match prehookErr with
         | None => log.Fatal "Mkdir is prehooked, but did not returned an error. h is very strange."
         | Some _ => ret tt
         end);;
        ret (ToStatus prehookErr)
      else
        lowerCode <- callLower fs_Mkdir RStatus (pathfs.Mkdir h.(fs) name mode context);
        '(posthooked, posthookErr) <-
          callPost fs_Mkdir post2 (PostMkdir hook lowerCode prehookCtx);
        if posthooked then
          log.Debug "Mkdir: Posthooked";;
          ret (ToStatus posthookErr)
        else ret lowerCode
  | None => callLower fs_Mkdir RStatus (pathfs.Mkdir h.(fs) name mode context)
  end.

Definition Mknod (h : t) (name : string) (mode : Z) (dev : Z) (context : option FuseContext) : M Status :=
  let hookEnabled := type_assert asHookOnMknod h.(hook) in
  log.Trace "fs.Mknod";;
  match hookEnabled with
  | Some hook =>
      '(prehooked, prehookCtx, prehookErr) <-
        callPre fs_Mknod pre3 (PreMknod hook name mode dev);
      if prehooked then
        log.Debug "Mknod: Prehooked";;
        ret (ToStatus prehookErr)
      else
        lowerCode <- callLower fs_Mknod RStatus (pathfs.Mknod h.(fs) name mode dev context);
        '(posthooked, posthookErr) <-
          callPost fs_Mknod post2 (PostMknod hook lowerCode prehookCtx);
        if posthooked then
          log.Debug "Mknod: Posthooked";;
          ret (ToStatus posthookErr)
        else ret lowerCode
  | None => callLower fs_Mknod RStatus (pathfs.Mknod h.(fs) name mode dev context)
  end.

Definition Rename (h : t) (oldName : string) (newName : string) (context : option FuseContext) : M Status :=
  let hookEnabled := type_assert asHookOnRename h.(hook) in
  log.Trace "fs.Rename";;
  match hookEnabled with
  | Some hook =>
      '(prehooked, prehookCtx, prehookErr) <-
        callPre fs_Rename pre3 (PreRename hook oldName newName);
      if prehooked then
        log.Debug "Rename: Prehooked";;
        ret (ToStatus prehookErr)
      else
        lowerCode <- callLower fs_Rename RStatus (pathfs.Rename h.(fs) oldName newName context);
        '(posthooked, posthookErr) <-
          callPost fs_Rename post2 (PostRename hook lowerCode prehookCtx);
        if posthooked then
          log.Debug "Rename: Posthooked";;
          ret (ToStatus posthookErr)
        else ret lowerCode
  | None => callLower fs_Rename RStatus (pathfs.Rename h.(fs) oldName newName context)
  end.

Definition Rmdir (h : t) (name : string) (context : option FuseContext) : M Status :=
  let hookEnabled := type_assert asHookOnRmdir h.(hook) in
  log.Trace "fs.Rmdir";;
  match hookEnabled with
  | Some hook =>
      '(prehooked, prehookCtx, prehookErr) <-
        callPre fs_Rmdir pre3 (PreRmdir hook name);
      if prehooked then
        log.Debug "Rmdir: Prehooked";;
        (match prehookErr with
         | None => log.Fatal "Rmdir is prehooked, but did not returned an error. h is very strange."
         | Some _ => ret tt
         end);;
        ret (ToStatus prehookErr)
      else
        lowerCode <- callLower fs_Rmdir RStatus (pathfs.Rmdir h.(fs) name context);
        '(posthooked, posthookErr) <-
          callPost fs_Rmdir post2 (PostRmdir hook lowerCode prehookCtx);
        if posthooked then
          log.Debug "Rmdir: Posthooked";;
          ret (ToStatus posthookErr)
        else ret lowerCode
  | None => callLower fs_Rmdir RStatus (pathfs.Rmdir h.(fs) name context)
  end.

Definition Unlink (h : t) (name : string) (context : option FuseContext) : M Status :=
  let hookEnabled := type_assert asHookOnUnlink h.(hook) in
  log.Trace "fs.Unlink";;
  match hookEnabled with
  | Some hook =>
      '(prehooked, prehookCtx, prehookErr) <-
        callPre fs_Unlink pre3 (PreUnlink hook name);
      if prehooked then
        log.Debug "Unlink: Prehooked";;
        ret (ToStatus prehookErr)
      else
        lowerCode <- callLower fs_Unlink RStatus (pathfs.Unlink h.(fs) name context);
        '(posthooked, posthookErr) <-
          callPost fs_Unlink post2 (PostUnlink hook lowerCode prehookCtx);
        if posthooked then
          log.Debug "Unlink: Posthooked";;
          ret (ToStatus posthookErr)
        else ret lowerCode
  | None => callLower fs_Unlink RStatus (pathfs.Unlink h.(fs) name context)
  end.

Definition GetXAttr (h : t) (name : string) (attribute : string) (context : option FuseContext) : M (list byte * Status) :=
  let hookEnabled := type_assert asHookOnGetXAttr h.(hook) in
  log.Trace "fs.CetXAttr";;
  match hookEnabled with
  | Some hook =>
      '(prehooked, prehookCtx, prehookErr) <-
        callPre fs_GetXAttr pre3 (PreGetXAttr hook name attribute);
      if prehooked then
        log.Debug "GetXAttr: Prehooked";;
        ret ([], ToStatus prehookErr)
      else
        '(attr, lowerCode) <-
          callLower fs_GetXAttr (uncurry RData) (pathfs.GetXAttr h.(fs) name attribute context);
        '(posthooked, posthookErr) <-
          callPost fs_GetXAttr post2 (PostGetXAttr hook lowerCode prehookCtx);
        if posthooked then
          log.Debug "GetXAttr: Posthooked";;
          ret (attr, ToStatus posthookErr)
        else ret (attr, lowerCode)
  | None => callLower fs_GetXAttr (uncurry RData) (pathfs.GetXAttr h.(fs) name attribute context)
  end.

Definition ListXAttr (h : t) (name : string) (context : option FuseContext) : M (list string * Status) :=
  let hookEnabled := type_assert asHookOnListXAttr h.(hook) in
  log.Trace "fs.ListXAttr";;
  match hookEnabled with
  | Some hook =>
      '(prehooked, prehookCtx, prehookErr) <-
        callPre fs_ListXAttr pre3 (PreListXAttr hook name);
      if prehooked then
        log.Debug "ListXAttr: Prehooked";;
        ret ([], ToStatus prehookErr)
      else
        '(attr, lowerCode) <-
          callLower fs_ListXAttr (uncurry RNames) (pathfs.ListXAttr h.(fs) name context);
        '(posthooked, posthookErr) <-
          callPost fs_ListXAttr post2 (PostListXAttr hook lowerCode prehookCtx);
        if posthooked then
          log.Debug "ListXAttr: Posthooked";;
          ret (attr, ToStatus posthookErr)
        else ret (attr, lowerCode)
  | None => callLower fs_ListXAttr (uncurry RNames) (pathfs.ListXAttr h.(fs) name context)
  end.

Definition RemoveXAttr (h : t) (name : string) (attr : string) (context : option FuseContext) : M Status :=
  let hookEnabled := type_assert asHookOnRemoveXAttr h.(hook) in
  log.Trace "fs.RemoveXAttr";;
  match hookEnabled with
  | Some hook =>
      '(prehooked, prehookCtx, prehookErr) <-
        callPre fs_RemoveXAttr pre3 (PreRemoveXAttr hook name attr);
      if prehooked then
        log.Debug "RemoveXAttr: Prehooked";;
        ret (ToStatus prehookErr)
      else
        lowerCode <- callLower fs_RemoveXAttr RStatus (pathfs.RemoveXAttr h.(fs) name attr context);
        '(posthooked, posthookErr) <-
          callPost fs_RemoveXAttr post2 (PostRemoveXAttr hook lowerCode prehookCtx);
        if posthooked then
          log.Debug "RemoveXAttr: Posthooked";;
          ret (ToStatus posthookErr)
        else ret lowerCode
  | None => callLower fs_RemoveXAttr RStatus (pathfs.RemoveXAttr h.(fs) name attr context)
  end.

Definition SetXAttr (h : t) (name : string) (attr : string) (data : list byte) (flags : Z) (context : option FuseContext) : M Status :=
  let hookEnabled := type_assert asHookOnSetXAttr h.(hook) in
  log.Trace "fs.SetXAttr";;
  match hookEnabled with
  | Some hook =>
      '(prehooked, prehookCtx, prehookErr) <-
        callPre fs_SetXAttr pre3 (PreSetXAttr hook name attr data flags);
      if prehooked then
        log.Debug "SetXAttr: Prehooked";;
        ret (ToStatus prehookErr)
      else
        lowerCode <- callLower fs_SetXAttr RStatus (pathfs.SetXAttr h.(fs) name attr data flags context);
        '(posthooked, posthookErr) <-
          callPost fs_SetXAttr post2 (PostSetXAttr hook lowerCode prehookCtx);
        if posthooked then
          log.Debug "SetXAttr: Posthooked";;
          ret (ToStatus posthookErr)
        else ret lowerCode
  | None => callLower fs_SetXAttr RStatus (pathfs.SetXAttr h.(fs) name attr data flags context)
  end.

(** [OnMount] returns the receiver as the call leaves it: a failing [Init]
    sets [h.hook = nil]. *)
Definition OnMount (h : t) (nodeFs : option PathNodeFs) : M t :=
  log.Trace "fs.OnMount";;
  callLower fs_OnMount rvoid (pathfs.OnMount h.(fs) nodeFs);;
  let hookEnabled := type_assert asHookWithInit h.(hook) in
  match hookEnabled with
  | Some hook =>
      err <- call EvInit (Init hook);
      match err with
      | Some e =>
          log.Error e;;
          log.Warn "Disabling hook";;
          ret {| Original := h.(Original); Mountpoint := h.(Mountpoint);
                 FsName := h.(FsName); fs := h.(fs); hook := None |}
      | None => ret h
      end
  | None => ret h
  end.

Definition OnUnmount (h : t) : M unit :=
  log.Trace "fs.OnUnmount";;
  callLower fs_OnUnmount rvoid (pathfs.OnUnmount h.(fs)).

Definition Open (h : t) (name : string) (flags : Z) (context : option FuseContext) : M (option hookFile.t * Status) :=
  let h_hook := h.(hook) in
  let hookEnabled := type_assert asHookOnOpen h_hook in
  log.Trace "fs.Open";;
  match hookEnabled with
  | Some hook =>
      '(prehooked, prehookCtx, prehookErr) <-
        callPre fs_Open pre3 (PreOpen hook name flags);
      if prehooked then
        log.Debug "Open: Prehooked";;
        (match prehookErr with
         | None => log.Fatal "Open is prehooked, but did not returned an error. h is very strange."
         | Some _ => ret tt
         end);;
        ret (None, ToStatus prehookErr)
      else
        '(lowerFile, lowerCode) <-
          callLower fs_Open rlowerfile (pathfs.Open h.(fs) name flags context);
        '(hFile, hErr) <- newHookFile lowerFile name h_hook;
        (match hErr with
         | Some _ => log.Panic "NewHookFile() should not cause an error"
         | None => ret tt
         end);;
        '(posthooked, posthookErr) <-
          callPost fs_Open post2 (PostOpen hook lowerCode prehookCtx);
        if posthooked then
          log.Debug "Open: Posthooked";;
          ret (Some hFile, ToStatus posthookErr)
        else ret (Some hFile, lowerCode)
  | None =>
      '(lowerFile, lowerCode) <-
        callLower fs_Open rlowerfile (pathfs.Open h.(fs) name flags context);
      '(hFile, hErr) <- newHookFile lowerFile name h_hook;
      (match hErr with
       | Some _ => log.Panic "NewHookFile() should not cause an error"
       | None => ret tt
       end);;
      ret (Some hFile, lowerCode)
  end.

Definition Create (h : t) (name : string) (flags : Z) (mode : Z) (context : option FuseContext) : M (option hookFile.t * Status) :=
  let h_hook := h.(hook) in
  let hookEnabled := type_assert asHookOnCreate h_hook in
  log.Trace "fs.Create";;
  match hookEnabled with
  | Some hook =>
      '(prehooked, prehookCtx, prehookErr) <-
        callPre fs_Create pre3 (PreCreate hook name flags mode);
      if prehooked then
        log.Debug "Create: Prehooked";;
        ret (None, ToStatus prehookErr)
      else
        '(lowerFile, lowerCode) <-
          callLower fs_Create rlowerfile (pathfs.Create h.(fs) name flags mode context);
        '(hFile, hErr) <- newHookFile lowerFile name h_hook;
        (match hErr with
         | Some _ => log.Panic "NewHookFile() should not cause an error"
         | None => ret tt
         end);;
        '(posthooked, posthookErr) <-
          callPost fs_Create post2 (PostCreate hook lowerCode prehookCtx);
        if posthooked then
          log.Debug "Create: Posthooked";;
          ret (Some hFile, ToStatus posthookErr)
        else ret (Some hFile, lowerCode)
  | None =>
      '(lowerFile, lowerCode) <-
        callLower fs_Create rlowerfile (pathfs.Create h.(fs) name flags mode context);
      '(hFile, hErr) <- newHookFile lowerFile name h_hook;
      (match hErr with
       | Some _ => log.Panic "NewHookFile() should not cause an error"
       | None => ret tt
       end);;
      ret (Some hFile, lowerCode)
  end.

Definition OpenDir (h : t) (name : string) (context : option FuseContext) : M (list DirEntry * Status) :=
  let hookEnabled := type_assert asHookOnOpenDir h.(hook) in
  log.Trace "fs.OpenDir";;
  match hookEnabled with
  | Some hook =>
      '(prehooked, prehookCtx, prehookErr) <-
        callPre fs_OpenDir pre3 (PreOpenDir hook name);
      if prehooked then
        log.Debug "OpenDir: Prehooked";;
        (match prehookErr with
         | None => log.Fatal "OpenDir is prehooked, but did not returned an error. h is very strange."
         | Some _ => ret tt
         end);;
        ret ([], ToStatus prehookErr)
      else
        '(lowerEnts, lowerCode) <-
          callLower fs_OpenDir (uncurry REntries) (pathfs.OpenDir h.(fs) name context);
        '(posthooked, posthookErr) <-
          callPost fs_OpenDir post2 (PostOpenDir hook lowerCode prehookCtx);
        if posthooked then
          log.Debug "OpenDir: Posthooked";;
          ret (lowerEnts, ToStatus posthookErr)
        else ret (lowerEnts, lowerCode)
  | None => callLower fs_OpenDir (uncurry REntries) (pathfs.OpenDir h.(fs) name context)
  end.

Definition Symlink (h : t) (value : string) (linkName : string) (context : option FuseContext) : M Status :=
  let hookEnabled := type_assert asHookOnSymlink h.(hook) in
  log.Trace "fs.Symlink";;
  match hookEnabled with
  | Some hook =>
      '(prehooked, prehookCtx, prehookErr) <-
        callPre fs_Symlink pre3 (PreSymlink hook value linkName);
      if prehooked then
        log.Debug "Symlink: Prehooked";;
        ret (ToStatus prehookErr)
      else
        lowerCode <- callLower fs_Symlink RStatus (pathfs.Symlink h.(fs) value linkName context);
        '(posthooked, posthookErr) <-
          callPost fs_Symlink post2 (PostSymlink hook lowerCode prehookCtx);
        if posthooked then
          log.Debug "Symlink: Posthooked";;
          ret (ToStatus posthookErr)
        else ret lowerCode
  | None => callLower fs_Symlink RStatus (pathfs.Symlink h.(fs) value linkName context)
  end.

Definition Readlink (h : t) (name : string) (context : option FuseContext) : M (string * Status) :=
  let hookEnabled := type_assert asHookOnReadlink h.(hook) in
  log.Trace "fs.Readlink";;
  match hookEnabled with
  | Some hook =>
      '(prehooked, prehookCtx, prehookErr) <-
        callPre fs_Readlink pre3 (PreReadlink hook name);
      if prehooked then
        log.Debug "Readlink: Prehooked";;
        ret ("", ToStatus prehookErr)
      else
        '(link, lowerCode) <-
          callLower fs_Readlink (uncurry RLink) (pathfs.Readlink h.(fs) name context);
        '(posthooked, posthookErr) <-
          callPost fs_Readlink post2 (PostReadlink hook lowerCode prehookCtx);
        if posthooked then
          log.Debug "Readlink: Posthooked";;
          ret (link, ToStatus posthookErr)
        else ret (link, lowerCode)
  | None => callLower fs_Readlink (uncurry RLink) (pathfs.Readlink h.(fs) name context)
  end.

Definition StatFs (h : t) (name : string) : M (option StatfsOut) :=
  let hookEnabled := type_assert asHookOnStatFs h.(hook) in
  log.Trace "fs.StatFs";;
  match hookEnabled with
  | Some hook =>
      '(prehooked, prehookCtx, prehookErr) <-
        callPre fs_StatFs pre3 (PreStatFs hook name);
      if prehooked then
        log.Debug "StatFs: Prehooked";;
        ret None
      else
        out <- callLower fs_StatFs RStatFs (pathfs.StatFs h.(fs) name);
        '(posthooked, posthookErr) <-
          callPost fs_StatFs post2 (PostStatFs hook prehookCtx);
        if posthooked then
          log.Debug "StatFs: Posthooked";;
          ret out
        else ret out
  | None => callLower fs_StatFs RStatFs (pathfs.StatFs h.(fs) name)
  end.

End WithFuse.
End HookFs.

Section NewHookFs.
Context {F : Fuse}.
Local Open Scope monad_scope.
Local Open Scope string_scope.

(** [NewLoopbackFileSystem] is [pathfs.NewLoopbackFileSystem]. *)
Variable NewLoopbackFileSystem : string -> pathfs.FileSystem.

Definition NewHookFs (original mountpoint : string) (hook : Hook) : M (HookFs.t * error) :=
  log.Debug "Hooking a fs";;
  let loopbackfs := NewLoopbackFileSystem original in
  let hookfs := {| HookFs.Original := original; HookFs.Mountpoint := mountpoint;
                   HookFs.FsName := "hookfs"; HookFs.fs := loopbackfs;
                   HookFs.hook := hook |} in
  ret (hookfs, None).

End NewHookFs.

(** ** A mounted filesystem and the requests it serves

    The state of a mount: the outside world, the one [*HookFs], and the
    [*hookFile] objects created so far (a handle is an index into them).  The
    transport delivers one request at a time to the matching wrapper method. *)

Section Mount.
Context {F : Fuse}.

Record Sys : Type := {
  sys_world : World;
  sys_fs : HookFs.t;
  sys_files : list hookFile.t
}.

Inductive Request : Type :=
| ReqGetAttr (name : string) (context : option FuseContext)
| ReqChmod (name : string) (mode : Z) (context : option FuseContext)
| ReqChown (name : string) (uid gid : Z) (context : option FuseContext)
| ReqUtimens (name : string) (Atime Mtime : option Time) (context : option FuseContext)
| ReqTruncate (name : string) (size : Z) (context : option FuseContext)
| ReqAccess (name : string) (mode : Z) (context : option FuseContext)
| ReqLink (oldName newName : string) (context : option FuseContext)
| ReqMkdir (name : string) (mode : Z) (context : option FuseContext)
| ReqMknod (name : string) (mode dev : Z) (context : option FuseContext)
| ReqRename (oldName newName : string) (context : option FuseContext)
| ReqRmdir (name : string) (context : option FuseContext)
| ReqUnlink (name : string) (context : option FuseContext)
| ReqGetXAttr (name attribute : string) (context : option FuseContext)
| ReqListXAttr (name : string) (context : option FuseContext)
| ReqRemoveXAttr (name attr : string) (context : option FuseContext)
| ReqSetXAttr (name attr : string) (data : list byte) (flags : Z) (context : option FuseContext)
| ReqOnMount (nodeFs : option PathNodeFs)
| ReqOnUnmount
| ReqOpen (name : string) (flags : Z) (context : option FuseContext)
| ReqCreate (name : string) (flags mode : Z) (context : option FuseContext)
| ReqOpenDir (name : string) (context : option FuseContext)
| ReqSymlink (value linkName : string) (context : option FuseContext)
| ReqReadlink (name : string) (context : option FuseContext)
| ReqStatFs (name : string)
| ReqFileRead (fh : nat) (dest : list byte) (off : Z)
| ReqFileWrite (fh : nat) (data : list byte) (off : Z)
| ReqFileFlush (fh : nat)
| ReqFileRelease (fh : nat)
| ReqFileFsync (fh : nat) (flags : Z)
| ReqFileTruncate (fh : nat) (size : Z)
| ReqFileGetAttr (fh : nat) (out : option Attr)
| ReqFileChown (fh : nat) (uid gid : Z)
| ReqFileChmod (fh : nat) (perms : Z)
| ReqFileUtimens (fh : nat) (atime mtime : option Time)
| ReqFileAllocate (fh : nat) (off size mode : Z)
| ReqFileGetLk (fh : nat) (owner : Z) (lk : option FileLock) (flags : Z) (out : option FileLock)
| ReqFileSetLk (fh : nat) (owner : Z) (lk : option FileLock) (flags : Z)
| ReqFileSetLkw (fh : nat) (owner : Z) (lk : option FileLock) (flags : Z).

Definition method_of (req : Request) : Method :=
  match req with
  | ReqGetAttr _ _ => fs_GetAttr
  | ReqChmod _ _ _ => fs_Chmod
  | ReqChown _ _ _ _ => fs_Chown
  | ReqUtimens _ _ _ _ => fs_Utimens
  | ReqTruncate _ _ _ => fs_Truncate
  | ReqAccess _ _ _ => fs_Access
  | ReqLink _ _ _ => fs_Link
  | ReqMkdir _ _ _ => fs_Mkdir
  | ReqMknod _ _ _ _ => fs_Mknod
  | ReqRename _ _ _ => fs_Rename
  | ReqRmdir _ _ => fs_Rmdir
  | ReqUnlink _ _ => fs_Unlink
  | ReqGetXAttr _ _ _ => fs_GetXAttr
  | ReqListXAttr _ _ => fs_ListXAttr
  | ReqRemoveXAttr _ _ _ => fs_RemoveXAttr
  | ReqSetXAttr _ _ _ _ _ => fs_SetXAttr
  | ReqOnMount _ => fs_OnMount
  | ReqOnUnmount => fs_OnUnmount
  | ReqOpen _ _ _ => fs_Open
  | ReqCreate _ _ _ _ => fs_Create
  | ReqOpenDir _ _ => fs_OpenDir
  | ReqSymlink _ _ _ => fs_Symlink
  | ReqReadlink _ _ => fs_Readlink
  | ReqStatFs _ => fs_StatFs
  | ReqFileRead _ _ _ => file_Read
  | ReqFileWrite _ _ _ => file_Write
  | ReqFileFlush _ => file_Flush
  | ReqFileRelease _ => file_Release
  | ReqFileFsync _ _ => file_Fsync
  | ReqFileTruncate _ _ => file_Truncate
  | ReqFileGetAttr _ _ => file_GetAttr
  | ReqFileChown _ _ _ => file_Chown
  | ReqFileChmod _ _ => file_Chmod
  | ReqFileUtimens _ _ _ => file_Utimens
  | ReqFileAllocate _ _ _ _ => file_Allocate
  | ReqFileGetLk _ _ _ _ _ => file_GetLk
  | ReqFileSetLk _ _ _ _ => file_SetLk
  | ReqFileSetLkw _ _ _ _ => file_SetLkw
  end.

(** The handle a handle-scope request names. *)
Definition handle_of (req : Request) : option nat :=
  match req with
  | ReqFileRead fh _ _ | ReqFileWrite fh _ _ | ReqFileFlush fh | ReqFileRelease fh
  | ReqFileFsync fh _ | ReqFileTruncate fh _ | ReqFileGetAttr fh _
  | ReqFileChown fh _ _ | ReqFileChmod fh _ | ReqFileUtimens fh _ _
  | ReqFileAllocate fh _ _ _ | ReqFileGetLk fh _ _ _ _ | ReqFileSetLk fh _ _ _
  | ReqFileSetLkw fh _ _ _ => Some fh
  | _ => None
  end.

Definition Served : Type := (Result Reply * Sys * list Event)%type.

Definition outcome (r : Served) : Result Reply := fst (fst r).

Definition final (r : Served) : Sys := snd (fst r).

Definition journal (r : Served) : list Event := snd r.

Definition with_world (s : Sys) (w : World) : Sys :=
  {| sys_world := w; sys_fs := s.(sys_fs); sys_files := s.(sys_files) |}.

Definition reply_of {A : Type} (view : A -> Reply) (r : Result A) : Result Reply :=
  match r with
  | Ret a => Ret (view a)
  | Exited => Exited
  | Panicked => Panicked
  end.

(** A method whose only effect on the mount is on the outside world. *)
Definition on_fs {A : Type} (s : Sys) (view : A -> Reply) (m : M A) : Served :=
  let '(r, w, t) := m s.(sys_world) in
  (reply_of view r, with_world s w, t).

(** [Open] and [Create]: the [*hookFile] they return is a new object. *)
Definition on_open (s : Sys) (m : M (option hookFile.t * Status)) : Served :=
  let '(r, w, t) := m s.(sys_world) in
  match r with
  | Ret (Some hFile, code) =>
      (Ret (RFile (HookFile (List.length s.(sys_files))) code),
       {| sys_world := w; sys_fs := s.(sys_fs); sys_files := s.(sys_files) ++ [hFile] |}, t)
  | Ret (None, code) => (Ret (RFile NilFile code), with_world s w, t)
  | Exited => (Exited, with_world s w, t)
  | Panicked => (Panicked, with_world s w, t)
  end.

(** [OnMount]: the receiver is updated in place. *)
Definition on_mount (s : Sys) (m : M HookFs.t) : Served :=
  let '(r, w, t) := m s.(sys_world) in
  match r with
  | Ret h => (Ret RVoid, {| sys_world := w; sys_fs := h; sys_files := s.(sys_files) |}, t)
  | Exited => (Exited, with_world s w, t)
  | Panicked => (Panicked, with_world s w, t)
  end.

(** A method of the [*hookFile] behind a handle; a handle that names no
    object is a nil receiver, and the method panics on its first field
    access. *)
Definition on_file {A : Type} (s : Sys) (fh : nat) (view : A -> Reply) (m : hookFile.t -> M A) : Served :=
  match nth_error s.(sys_files) fh with
  | Some h => on_fs s view (m h)
  | None => (Panicked, s, [])
  end.

Definition serve (req : Request) (s : Sys) : Served :=
  let h := s.(sys_fs) in
  match req with
  | ReqGetAttr name context => on_fs s (uncurry RAttr) (HookFs.GetAttr h name context)
  | ReqChmod name mode context => on_fs s RStatus (HookFs.Chmod h name mode context)
  | ReqChown name uid gid context => on_fs s RStatus (HookFs.Chown h name uid gid context)
  | ReqUtimens name Atime Mtime context => on_fs s RStatus (HookFs.Utimens h name Atime Mtime context)
  | ReqTruncate name size context => on_fs s RStatus (HookFs.Truncate h name size context)
  | ReqAccess name mode context => on_fs s RStatus (HookFs.Access h name mode context)
  | ReqLink oldName newName context => on_fs s RStatus (HookFs.Link h oldName newName context)
  | ReqMkdir name mode context => on_fs s RStatus (HookFs.Mkdir h name mode context)
  | ReqMknod name mode dev context => on_fs s RStatus (HookFs.Mknod h name mode dev context)
  | ReqRename oldName newName context => on_fs s RStatus (HookFs.Rename h oldName newName context)
  | ReqRmdir name context => on_fs s RStatus (HookFs.Rmdir h name context)
  | ReqUnlink name context => on_fs s RStatus (HookFs.Unlink h name context)
  | ReqGetXAttr name attribute context => on_fs s (uncurry RData) (HookFs.GetXAttr h name attribute context)
  | ReqListXAttr name context => on_fs s (uncurry RNames) (HookFs.ListXAttr h name context)
  | ReqRemoveXAttr name attr context => on_fs s RStatus (HookFs.RemoveXAttr h name attr context)
  | ReqSetXAttr name attr data flags context => on_fs s RStatus (HookFs.SetXAttr h name attr data flags context)
  | ReqOnMount nodeFs => on_mount s (HookFs.OnMount h nodeFs)
  | ReqOnUnmount => on_fs s rvoid (HookFs.OnUnmount h)
  | ReqOpen name flags context => on_open s (HookFs.Open h name flags context)
  | ReqCreate name flags mode context => on_open s (HookFs.Create h name flags mode context)
  | ReqOpenDir name context => on_fs s (uncurry REntries) (HookFs.OpenDir h name context)
  | ReqSymlink value linkName context => on_fs s RStatus (HookFs.Symlink h value linkName context)
  | ReqReadlink name context => on_fs s (uncurry RLink) (HookFs.Readlink h name context)
  | ReqStatFs name => on_fs s RStatFs (HookFs.StatFs h name)
  | ReqFileRead fh dest off => on_file s fh (uncurry RRead) (fun f => hookFile.Read f dest off)
  | ReqFileWrite fh data off => on_file s fh (uncurry RWritten) (fun f => hookFile.Write f data off)
  | ReqFileFlush fh => on_file s fh RStatus (fun f => hookFile.Flush f)
  | ReqFileRelease fh => on_file s fh rvoid (fun f => hookFile.Release f)
  | ReqFileFsync fh flags => on_file s fh RStatus (fun f => hookFile.Fsync f flags)
  | ReqFileTruncate fh size => on_file s fh RStatus (fun f => hookFile.Truncate f size)
  | ReqFileGetAttr fh out => on_file s fh RStatus (fun f => hookFile.GetAttr f out)
  | ReqFileChown fh uid gid => on_file s fh RStatus (fun f => hookFile.Chown f uid gid)
  | ReqFileChmod fh perms => on_file s fh RStatus (fun f => hookFile.Chmod f perms)
  | ReqFileUtimens fh atime mtime => on_file s fh RStatus (fun f => hookFile.Utimens f atime mtime)
  | ReqFileAllocate fh off size mode => on_file s fh RStatus (fun f => hookFile.Allocate f off size mode)
  | ReqFileGetLk fh owner lk flags out => on_file s fh RStatus (fun f => hookFile.GetLk f owner lk flags out)
  | ReqFileSetLk fh owner lk flags => on_file s fh RStatus (fun f => hookFile.SetLk f owner lk flags)
  | ReqFileSetLkw fh owner lk flags => on_file s fh RStatus (fun f => hookFile.SetLkw f owner lk flags)
  end.

(** The requests of a mount's lifetime, served one after the other. *)
Fixpoint serve_all (reqs : list Request) (s : Sys) : Sys :=
  match reqs with
  | [] => s
  | req :: rest => serve_all rest (final (serve req s))
  end.

End Mount.

(** ** The capability detector *)

Section Capabilities.
Context {F : Fuse}.

Definition is_some {A : Type} (o : option A) : bool :=
  match o with
  | Some _ => true
  | None => false
  end.

(** Whether [hook] implements the interface that method [m] asserts. *)
Definition implements (hook : Hook) (m : Method) : bool :=
  match m with
  | fs_GetAttr => is_some (type_assert asHookOnGetAttr hook)
  | fs_Chmod => is_some (type_assert asHookOnChmod hook)
  | fs_Chown => is_some (type_assert asHookOnChown hook)
  | fs_Utimens => is_some (type_assert asHookOnUtimens hook)
  | fs_Truncate => is_some (type_assert asHookOnTruncate hook)
  | fs_Access => is_some (type_assert asHookOnAccess hook)
  | fs_Link => is_some (type_assert asHookOnLink hook)
  | fs_Mkdir => is_some (type_assert asHookOnMkdir hook)
  | fs_Mknod => is_some (type_assert asHookOnMknod hook)
  | fs_Rename => is_some (type_assert asHookOnRename hook)
  | fs_Rmdir => is_some (type_assert asHookOnRmdir hook)
  | fs_Unlink => is_some (type_assert asHookOnUnlink hook)
  | fs_GetXAttr => is_some (type_assert asHookOnGetXAttr hook)
  | fs_ListXAttr => is_some (type_assert asHookOnListXAttr hook)
  | fs_RemoveXAttr => is_some (type_assert asHookOnRemoveXAttr hook)
  | fs_SetXAttr => is_some (type_assert asHookOnSetXAttr hook)
  | fs_OnMount => is_some (type_assert asHookWithInit hook)
  | fs_OnUnmount => false
  | fs_Open => is_some (type_assert asHookOnOpen hook)
  | fs_Create => is_some (type_assert asHookOnCreate hook)
  | fs_OpenDir => is_some (type_assert asHookOnOpenDir hook)
  | fs_Symlink => is_some (type_assert asHookOnSymlink hook)
  | fs_Readlink => is_some (type_assert asHookOnReadlink hook)
  | fs_StatFs => is_some (type_assert asHookOnStatFs hook)
  | file_Read => is_some (type_assert asHookOnRead hook)
  | file_Write => is_some (type_assert asHookOnWrite hook)
  | file_Flush => is_some (type_assert asHookOnFlush hook)
  | file_Release => is_some (type_assert asHookOnRelease hook)
  | file_Fsync => is_some (type_assert asHookOnFsync hook)
  | file_Truncate => is_some (type_assert asHandleHookOnTruncate hook)
  | file_GetAttr => is_some (type_assert asHandleHookOnGetAttr hook)
  | file_Chown => is_some (type_assert asHandleHookOnChown hook)
  | file_Chmod => is_some (type_assert asHandleHookOnChmod hook)
  | file_Utimens => is_some (type_assert asHandleHookOnUtimens hook)
  | file_Allocate => is_some (type_assert asHandleHookOnAllocate hook)
  | file_GetLk => is_some (type_assert asHandleHookOnGetLk hook)
  | file_SetLk => is_some (type_assert asHandleHookOnSetLk hook)
  | file_SetLkw => is_some (type_assert asHandleHookOnSetLkw hook)
  end.

(** The hook reference a request's method consults: [h.hook] of the
    [*HookFs] for a filesystem-scope request, [h.hook] of the [*hookFile]
    for a handle-scope one. *)
Definition consulted (req : Request) (s : Sys) : Hook :=
  match handle_of req with
  | None => HookFs.hook s.(sys_fs)
  | Some fh =>
      match nth_error s.(sys_files) fh with
      | Some h => hookFile.hook h
      | None => None
      end
  end.

Definition hooked_request (req : Request) (s : Sys) : bool :=
  implements (consulted req s) (method_of req).

End Capabilities.

(** ** Calling the delegate directly

    The reference for passthrough: the delegate's matching method, called with
    the request's arguments, and nothing else (on a nil receiver, or on the
    nil file, that call panics). *)

Section Direct.
Context {F : Fuse}.

Definition lower {A : Type} (s : Sys) (view : A -> Reply) (f : Eff A) : Result Reply * World :=
  let (x, w) := f s.(sys_world) in (Ret (view x), w).

Definition lower_file {A : Type} (s : Sys) (fh : nat) (view : A -> Reply) (f : nodefs.Methods -> Eff A) : Result Reply * World :=
  match nth_error s.(sys_files) fh with
  | Some h =>
      match hookFile.file h with
      | Some object => lower s view (f object)
      | None => (Panicked, s.(sys_world))
      end
  | None => (Panicked, s.(sys_world))
  end.

Definition direct (req : Request) (s : Sys) : Result Reply * World :=
  let fs := HookFs.fs s.(sys_fs) in
  match req with
  | ReqGetAttr name context => lower s (uncurry RAttr) (pathfs.GetAttr fs name context)
  | ReqChmod name mode context => lower s RStatus (pathfs.Chmod fs name mode context)
  | ReqChown name uid gid context => lower s RStatus (pathfs.Chown fs name uid gid context)
  | ReqUtimens name Atime Mtime context => lower s RStatus (pathfs.Utimens fs name Atime Mtime context)
  | ReqTruncate name size context => lower s RStatus (pathfs.Truncate fs name size context)
  | ReqAccess name mode context => lower s RStatus (pathfs.Access fs name mode context)
  | ReqLink oldName newName context => lower s RStatus (pathfs.Link fs oldName newName context)
  | ReqMkdir name mode context => lower s RStatus (pathfs.Mkdir fs name mode context)
  | ReqMknod name mode dev context => lower s RStatus (pathfs.Mknod fs name mode dev context)
  | ReqRename oldName newName context => lower s RStatus (pathfs.Rename fs oldName newName context)
  | ReqRmdir name context => lower s RStatus (pathfs.Rmdir fs name context)
  | ReqUnlink name context => lower s RStatus (pathfs.Unlink fs name context)
  | ReqGetXAttr name attribute context => lower s (uncurry RData) (pathfs.GetXAttr fs name attribute context)
  | ReqListXAttr name context => lower s (uncurry RNames) (pathfs.ListXAttr fs name context)
  | ReqRemoveXAttr name attr context => lower s RStatus (pathfs.RemoveXAttr fs name attr context)
  | ReqSetXAttr name attr data flags context => lower s RStatus (pathfs.SetXAttr fs name attr data flags context)
  | ReqOnMount nodeFs => lower s rvoid (pathfs.OnMount fs nodeFs)
  | ReqOnUnmount => lower s rvoid (pathfs.OnUnmount fs)
  | ReqOpen name flags context => lower s rlowerfile (pathfs.Open fs name flags context)
  | ReqCreate name flags mode context => lower s rlowerfile (pathfs.Create fs name flags mode context)
  | ReqOpenDir name context => lower s (uncurry REntries) (pathfs.OpenDir fs name context)
  | ReqSymlink value linkName context => lower s RStatus (pathfs.Symlink fs value linkName context)
  | ReqReadlink name context => lower s (uncurry RLink) (pathfs.Readlink fs name context)
  | ReqStatFs name => lower s RStatFs (pathfs.StatFs fs name)
  | ReqFileRead fh dest off => lower_file s fh (uncurry RRead) (fun f => nodefs.Read f dest off)
  | ReqFileWrite fh data off => lower_file s fh (uncurry RWritten) (fun f => nodefs.Write f data off)
  | ReqFileFlush fh => lower_file s fh RStatus (fun f => nodefs.Flush f)
  | ReqFileRelease fh => lower_file s fh rvoid (fun f => nodefs.Release f)
  | ReqFileFsync fh flags => lower_file s fh RStatus (fun f => nodefs.Fsync f flags)
  | ReqFileTruncate fh size => lower_file s fh RStatus (fun f => nodefs.Truncate f size)
  | ReqFileGetAttr fh out => lower_file s fh RStatus (fun f => nodefs.GetAttr f out)
  | ReqFileChown fh uid gid => lower_file s fh RStatus (fun f => nodefs.Chown f uid gid)
  | ReqFileChmod fh perms => lower_file s fh RStatus (fun f => nodefs.Chmod f perms)
  | ReqFileUtimens fh atime mtime => lower_file s fh RStatus (fun f => nodefs.Utimens f atime mtime)
  | ReqFileAllocate fh off size mode => lower_file s fh RStatus (fun f => nodefs.Allocate f off size mode)
  | ReqFileGetLk fh owner lk flags out => lower_file s fh RStatus (fun f => nodefs.GetLk f owner lk flags out)
  | ReqFileSetLk fh owner lk flags => lower_file s fh RStatus (fun f => nodefs.SetLk f owner lk flags)
  | ReqFileSetLkw fh owner lk flags => lower_file s fh RStatus (fun f => nodefs.SetLkw f owner lk flags)
  end.

End Direct.

(** ** The hook pair of a request

    The Before and the After method of the interface a request's method
    asserts, with the arguments that method is written to pass them: the
    reference against which the interception of a hooked request is stated.
    Both are [None] when the hook reference the method consults does not
    implement the interface; [OnMount] and [OnUnmount] have no pair. *)

Section Pairs.
Context {F : Fuse}.

Definition ctx3 (x : bool * HookContext * error) : HookContext := snd (fst x).

Definition ctx4 (x : list byte * bool * HookContext * error) : HookContext := snd (fst x).

Definition ctx2 (x : bool * HookContext) : HookContext := snd x.

(** A Before method called in world [w]: its answer, the context it made,
    the world it left. *)
Definition ask {X : Type} (view : X -> Answer) (ctx_of : X -> HookContext) (f : Eff X)
    (w : World) : Answer * HookContext * World :=
  let (x, w') := f w in (view x, ctx_of x, w').

(** An After method called in world [w]: its answer, the world it left. *)
Definition answer {X : Type} (view : X -> Answer) (f : Eff X) (w : World) : Answer * World :=
  let (x, w') := f w in (view x, w').

(** The path held by the [*hookFile] behind a handle. *)
Definition held_name (s : Sys) (fh : nat) : string :=
  match nth_error s.(sys_files) fh with
  | Some h => hookFile.name h
  | None => EmptyString
  end.

(** The status in a delegate's reply ([int32(lowerCode)]). *)
Definition reply_code (r : Reply) : Status :=
  match r with
  | RStatus code | RAttr _ code | RData _ code | RNames _ code | RLink _ code
  | RFile _ code | REntries _ code | RRead _ code | RWritten _ code => code
  | RStatFs _ | RVoid => OK
  end.

(** The bytes of the delegate's read result, read into a zeroed buffer of
    its size ([lowerRR.Bytes(make([]byte, lowerRR.Size()))]) in world [w];
    [None] when [Read] panics there: on the nil result, on a negative size,
    on a status other than OK. *)
Definition read_bytes (lowered : Reply) (w : World) : option (list byte) * World :=
  match lowered with
  | RRead lowerRR _ =>
      if rr_nil lowerRR then (None, w)
      else if Z.ltb (rr_Size lowerRR) 0 then (None, w)
      else
        let '((buf, status), w') :=
          rr_Bytes lowerRR (repeat x00 (Z.to_nat (rr_Size lowerRR))) w in
        if Z.eqb status OK then (Some buf, w') else (None, w')
  | _ => (None, w)
  end.

(** The Before hook of the request, called in the request's world. *)
Definition before (req : Request) (s : Sys) : option (Answer * HookContext * World) :=
  let hook := consulted req s in
  let w := s.(sys_world) in
  match req with
  | ReqGetAttr name _ =>
      option_map (fun hk => ask pre3 ctx3 (PreGetAttr hk name) w) (type_assert asHookOnGetAttr hook)
  | ReqChmod name mode _ =>
      option_map (fun hk => ask pre3 ctx3 (PreChmod hk name mode) w) (type_assert asHookOnChmod hook)
  | ReqChown name uid gid _ =>
      option_map (fun hk => ask pre3 ctx3 (PreChown hk name uid gid) w) (type_assert asHookOnChown hook)
  | ReqUtimens name Atime Mtime _ =>
      option_map (fun hk => ask pre3 ctx3 (PreUtimens hk name Atime Mtime) w) (type_assert asHookOnUtimens hook)
  | ReqTruncate name size _ =>
      option_map (fun hk => ask pre3 ctx3 (PreTruncate hk name size) w) (type_assert asHookOnTruncate hook)
  | ReqAccess name mode _ =>
      option_map (fun hk => ask pre3 ctx3 (PreAccess hk name mode) w) (type_assert asHookOnAccess hook)
  | ReqLink oldName newName _ =>
      option_map (fun hk => ask pre3 ctx3 (PreLink hk oldName newName) w) (type_assert asHookOnLink hook)
  | ReqMkdir name mode _ =>
      option_map (fun hk => ask pre3 ctx3 (PreMkdir hk name mode) w) (type_assert asHookOnMkdir hook)
  | ReqMknod name mode dev _ =>
      option_map (fun hk => ask pre3 ctx3 (PreMknod hk name mode dev) w) (type_assert asHookOnMknod hook)
  | ReqRename oldName newName _ =>
      option_map (fun hk => ask pre3 ctx3 (PreRename hk oldName newName) w) (type_assert asHookOnRename hook)
  | ReqRmdir name _ =>
      option_map (fun hk => ask pre3 ctx3 (PreRmdir hk name) w) (type_assert asHookOnRmdir hook)
  | ReqUnlink name _ =>
      option_map (fun hk => ask pre3 ctx3 (PreUnlink hk name) w) (type_assert asHookOnUnlink hook)
  | ReqGetXAttr name attribute _ =>
      option_map (fun hk => ask pre3 ctx3 (PreGetXAttr hk name attribute) w) (type_assert asHookOnGetXAttr hook)
  | ReqListXAttr name _ =>
      option_map (fun hk => ask pre3 ctx3 (PreListXAttr hk name) w) (type_assert asHookOnListXAttr hook)
  | ReqRemoveXAttr name attr _ =>
      option_map (fun hk => ask pre3 ctx3 (PreRemoveXAttr hk name attr) w) (type_assert asHookOnRemoveXAttr hook)
  | ReqSetXAttr name attr data flags _ =>
      option_map (fun hk => ask pre3 ctx3 (PreSetXAttr hk name attr data flags) w) (type_assert asHookOnSetXAttr hook)
  | ReqOnMount _ => None
  | ReqOnUnmount => None
  | ReqOpen name flags _ =>
      option_map (fun hk => ask pre3 ctx3 (PreOpen hk name flags) w) (type_assert asHookOnOpen hook)
  | ReqCreate name flags mode _ =>
      option_map (fun hk => ask pre3 ctx3 (PreCreate hk name flags mode) w) (type_assert asHookOnCreate hook)
  | ReqOpenDir name _ =>
      option_map (fun hk => ask pre3 ctx3 (PreOpenDir hk name) w) (type_assert asHookOnOpenDir hook)
  | ReqSymlink value linkName _ =>
      option_map (fun hk => ask pre3 ctx3 (PreSymlink hk value linkName) w) (type_assert asHookOnSymlink hook)
  | ReqReadlink name _ =>
      option_map (fun hk => ask pre3 ctx3 (PreReadlink hk name) w) (type_assert asHookOnReadlink hook)
  | ReqStatFs name =>
      option_map (fun hk => ask pre3 ctx3 (PreStatFs hk name) w) (type_assert asHookOnStatFs hook)
  | ReqFileRead fh dest off =>
      option_map (fun hk => ask pre4 ctx4 (PreRead hk (held_name s fh) (Z.of_nat (List.length dest)) off) w)
        (type_assert asHookOnRead hook)
  | ReqFileWrite fh data off =>
      option_map (fun hk => ask pre3 ctx3 (PreWrite hk (held_name s fh) data off) w) (type_assert asHookOnWrite hook)
  | ReqFileFlush fh =>
      option_map (fun hk => ask pre3 ctx3 (PreFlush hk (held_name s fh)) w) (type_assert asHookOnFlush hook)
  | ReqFileRelease fh =>
      option_map (fun hk => ask pre2 ctx2 (PreRelease hk (held_name s fh)) w) (type_assert asHookOnRelease hook)
  | ReqFileFsync fh flags =>
      option_map (fun hk => ask pre3 ctx3 (PreFsync hk (held_name s fh) (hookFile.uint32 flags)) w)
        (type_assert asHookOnFsync hook)
  | ReqFileTruncate fh size =>
      option_map (fun hk => ask pre3 ctx3 (handle.PreTruncate hk (held_name s fh) size) w)
        (type_assert asHandleHookOnTruncate hook)
  | ReqFileGetAttr fh out =>
      option_map (fun hk => ask pre3 ctx3 (handle.PreGetAttr hk (held_name s fh) out) w)
        (type_assert asHandleHookOnGetAttr hook)
  | ReqFileChown fh uid gid =>
      option_map (fun hk => ask pre3 ctx3 (handle.PreChown hk (held_name s fh) uid gid) w)
        (type_assert asHandleHookOnChown hook)
  | ReqFileChmod fh perms =>
      option_map (fun hk => ask pre3 ctx3 (handle.PreChmod hk (held_name s fh) perms) w)
        (type_assert asHandleHookOnChmod hook)
  | ReqFileUtimens fh atime mtime =>
      option_map (fun hk => ask pre3 ctx3 (handle.PreUtimens hk (held_name s fh) atime mtime) w)
        (type_assert asHandleHookOnUtimens hook)
  | ReqFileAllocate fh off size mode =>
      option_map (fun hk => ask pre3 ctx3 (handle.PreAllocate hk (held_name s fh) off size mode) w)
        (type_assert asHandleHookOnAllocate hook)
  | ReqFileGetLk fh owner lk flags out =>
      option_map (fun hk => ask pre3 ctx3 (handle.PreGetLk hk (held_name s fh) owner lk flags out) w)
        (type_assert asHandleHookOnGetLk hook)
  | ReqFileSetLk fh owner lk flags =>
      option_map (fun hk => ask pre3 ctx3 (handle.PreSetLk hk (held_name s fh) owner lk flags) w)
        (type_assert asHandleHookOnSetLk hook)
  | ReqFileSetLkw fh owner lk flags =>
      option_map (fun hk => ask pre3 ctx3 (handle.PreSetLkw hk (held_name s fh) owner lk flags) w)
        (type_assert asHandleHookOnSetLkw hook)
  end.

(** The After hook of the request, called in world [w] after the delegate
    replied [lowered], with the context [ctx] of the Before hook.  The After
    hook of a read is handed the delegate's bytes, read at that point; there
    is no answer when that read makes [Read] panic. *)
Definition after (req : Request) (s : Sys) (lowered : Reply) (ctx : HookContext) (w : World)
    : option (Answer * World) :=
  let hook := consulted req s in
  let code := reply_code lowered in
  match req with
  | ReqGetAttr _ _ =>
      option_map (fun hk => answer post2 (PostGetAttr hk code ctx) w) (type_assert asHookOnGetAttr hook)
  | ReqChmod _ _ _ =>
      option_map (fun hk => answer post2 (PostChmod hk code ctx) w) (type_assert asHookOnChmod hook)
  | ReqChown _ _ _ _ =>
      option_map (fun hk => answer post2 (PostChown hk code ctx) w) (type_assert asHookOnChown hook)
  | ReqUtimens _ _ _ _ =>
      option_map (fun hk => answer post2 (PostUtimens hk code ctx) w) (type_assert asHookOnUtimens hook)
  | ReqTruncate _ _ _ =>
      option_map (fun hk => answer post2 (PostTruncate hk code ctx) w) (type_assert asHookOnTruncate hook)
  | ReqAccess _ _ _ =>
      option_map (fun hk => answer post2 (PostAccess hk code ctx) w) (type_assert asHookOnAccess hook)
  | ReqLink _ _ _ =>
      option_map (fun hk => answer post2 (PostLink hk code ctx) w) (type_assert asHookOnLink hook)
  | ReqMkdir _ _ _ =>
      option_map (fun hk => answer post2 (PostMkdir hk code ctx) w) (type_assert asHookOnMkdir hook)
  | ReqMknod _ _ _ _ =>
      option_map (fun hk => answer post2 (PostMknod hk code ctx) w) (type_assert asHookOnMknod hook)
  | ReqRename _ _ _ =>
      option_map (fun hk => answer post2 (PostRename hk code ctx) w) (type_assert asHookOnRename hook)
  | ReqRmdir _ _ =>
      option_map (fun hk => answer post2 (PostRmdir hk code ctx) w) (type_assert asHookOnRmdir hook)
  | ReqUnlink _ _ =>
      option_map (fun hk => answer post2 (PostUnlink hk code ctx) w) (type_assert asHookOnUnlink hook)
  | ReqGetXAttr _ _ _ =>
      option_map (fun hk => answer post2 (PostGetXAttr hk code ctx) w) (type_assert asHookOnGetXAttr hook)
  | ReqListXAttr _ _ =>
      option_map (fun hk => answer post2 (PostListXAttr hk code ctx) w) (type_assert asHookOnListXAttr hook)
  | ReqRemoveXAttr _ _ _ =>
      option_map (fun hk => answer post2 (PostRemoveXAttr hk code ctx) w) (type_assert asHookOnRemoveXAttr hook)
  | ReqSetXAttr _ _ _ _ _ =>
      option_map (fun hk => answer post2 (PostSetXAttr hk code ctx) w) (type_assert asHookOnSetXAttr hook)
  | ReqOnMount _ => None
  | ReqOnUnmount => None
  | ReqOpen _ _ _ =>
      option_map (fun hk => answer post2 (PostOpen hk code ctx) w) (type_assert asHookOnOpen hook)
  | ReqCreate _ _ _ _ =>
      option_map (fun hk => answer post2 (PostCreate hk code ctx) w) (type_assert asHookOnCreate hook)
  | ReqOpenDir _ _ =>
      option_map (fun hk => answer post2 (PostOpenDir hk code ctx) w) (type_assert asHookOnOpenDir hook)
  | ReqSymlink _ _ _ =>
      option_map (fun hk => answer post2 (PostSymlink hk code ctx) w) (type_assert asHookOnSymlink hook)
  | ReqReadlink _ _ =>
      option_map (fun hk => answer post2 (PostReadlink hk code ctx) w) (type_assert asHookOnReadlink hook)
  | ReqStatFs _ =>
      option_map (fun hk => answer post2 (PostStatFs hk ctx) w) (type_assert asHookOnStatFs hook)
  | ReqFileRead _ _ _ =>
      match type_assert asHookOnRead hook with
      | Some hk =>
          match read_bytes lowered w with
          | (Some lowerRRBuf, w') => Some (answer post3 (PostRead hk code lowerRRBuf ctx) w')
          | (None, _) => None
          end
      | None => None
      end
  | ReqFileWrite _ _ _ =>
      option_map (fun hk => answer post2 (PostWrite hk code ctx) w) (type_assert asHookOnWrite hook)
  | ReqFileFlush _ =>
      option_map (fun hk => answer post2 (PostFlush hk code ctx) w) (type_assert asHookOnFlush hook)
  | ReqFileRelease _ =>
      option_map (fun hk => answer VerdictFlag (PostRelease hk ctx) w) (type_assert asHookOnRelease hook)
  | ReqFileFsync _ _ =>
      option_map (fun hk => answer post2 (PostFsync hk code ctx) w) (type_assert asHookOnFsync hook)
  | ReqFileTruncate _ _ =>
      option_map (fun hk => answer post2 (handle.PostTruncate hk ctx) w) (type_assert asHandleHookOnTruncate hook)
  | ReqFileGetAttr _ _ =>
      option_map (fun hk => answer post2 (handle.PostGetAttr hk ctx) w) (type_assert asHandleHookOnGetAttr hook)
  | ReqFileChown _ _ _ =>
      option_map (fun hk => answer post2 (handle.PostChown hk ctx) w) (type_assert asHandleHookOnChown hook)
  | ReqFileChmod _ _ =>
      option_map (fun hk => answer post2 (handle.PostChmod hk ctx) w) (type_assert asHandleHookOnChmod hook)
  | ReqFileUtimens _ _ _ =>
      option_map (fun hk => answer post2 (handle.PostUtimens hk ctx) w) (type_assert asHandleHookOnUtimens hook)
  | ReqFileAllocate _ _ _ _ =>
      option_map (fun hk => answer post2 (handle.PostAllocate hk ctx) w) (type_assert asHandleHookOnAllocate hook)
  | ReqFileGetLk _ _ _ _ _ =>
      option_map (fun hk => answer post2 (handle.PostGetLk hk ctx) w) (type_assert asHandleHookOnGetLk hook)
  | ReqFileSetLk _ _ _ _ =>
      option_map (fun hk => answer post2 (handle.PostSetLk hk ctx) w) (type_assert asHandleHookOnSetLk hook)
  | ReqFileSetLkw _ _ _ _ =>
      option_map (fun hk => answer post2 (handle.PostSetLkw hk ctx) w) (type_assert asHandleHookOnSetLkw hook)
  end.

End Pairs.

(** ** Reading a journal and a reply *)

Section Observations.
Context {F : Fuse}.
Local Open Scope string_scope.

Definition is_pre (e : Event) : bool :=
  match e with EvPre _ _ => true | _ => false end.

Definition is_post (e : Event) : bool :=
  match e with EvPost _ _ => true | _ => false end.

Definition is_init (e : Event) : bool :=
  match e with EvInit _ => true | _ => false end.

(** A call of a delegate method ([EvBytes] is the read of a result the
    delegate already returned, not a further call). *)
Definition is_lower (e : Event) : bool :=
  match e with EvLower _ _ => true | _ => false end.

Definition is_release (e : Event) : bool :=
  match e with EvLower file_Release _ => true | _ => false end.

Definition is_abort_log (e : Event) : bool :=
  match e with
  | EvLog FatalLevel _ | EvLog PanicLevel _ => true
  | _ => false
  end.

Definition count (p : Event -> bool) (t : list Event) : nat := List.length (filter p t).

Definition pre_calls : list Event -> nat := count is_pre.

Definition post_calls : list Event -> nat := count is_post.

Definition init_calls : list Event -> nat := count is_init.

Definition lower_calls : list Event -> nat := count is_lower.

Definition release_calls : list Event -> nat := count is_release.

Definition abort_logs : list Event -> nat := count is_abort_log.

(** Mkdir, Rmdir, Open and OpenDir: the methods that call [log.Fatal] on a
    short-circuit without an error. *)
Definition fatal_on_success (m : Method) : bool :=
  match m with
  | fs_Mkdir | fs_Rmdir | fs_Open | fs_OpenDir => true
  | _ => false
  end.

Definition is_nil (e : error) : bool :=
  match e with
  | None => true
  | Some _ => false
  end.

(** What method [m] returns when its Before hook answered [a] with
    [hooked = true]: the hook's bytes for a read, otherwise the empty result
    of the method's shape, with the status of the hook's error. *)
Definition short_reply (m : Method) (a : Answer) : Reply :=
  let code := ToStatus (answer_err a) in
  match m with
  | fs_GetAttr => RAttr None code
  | fs_GetXAttr => RData [] code
  | fs_ListXAttr => RNames [] code
  | fs_Readlink => RLink "" code
  | fs_Open | fs_Create => RFile NilFile code
  | fs_OpenDir => REntries [] code
  | fs_StatFs => RStatFs None
  | file_Read => RRead (ReadResultData (answer_buf a)) code
  | file_Write => RWritten 0%Z code
  | file_Release | fs_OnMount | fs_OnUnmount => RVoid
  | _ => RStatus code
  end.

(** How method [m] ends when its Before hook answered [a] with
    [hooked = true]. *)
Definition short_outcome (m : Method) (a : Answer) : Result Reply :=
  if fatal_on_success m && is_nil (answer_err a) then Exited
  else Ret (short_reply m a).

(** What a method returns when its After hook answered [a] with
    [hooked = true] and the delegate had returned [lowered]: the status of
    the hook's error; the hook's bytes for a read and a zero count for a
    write; otherwise the delegate's own result ([Open] and [Create] return
    the handle of the new [*hookFile]). *)
Definition post_reply (s : Sys) (a : Answer) (lowered : Reply) : Reply :=
  let code := ToStatus (answer_err a) in
  match lowered with
  | RStatus _ => RStatus code
  | RAttr attr _ => RAttr attr code
  | RData data _ => RData data code
  | RNames names _ => RNames names code
  | RLink target _ => RLink target code
  | RFile _ _ => RFile (HookFile (List.length s.(sys_files))) code
  | REntries ents _ => REntries ents code
  | RStatFs out => RStatFs out
  | RRead _ _ => RRead (ReadResultData (answer_buf a)) code
  | RWritten _ _ => RWritten 0%Z code
  | RVoid => RVoid
  end.

(** The path an [Open] or [Create] request names. *)
Definition opened_name (req : Request) : string :=
  match req with
  | ReqOpen name _ _ | ReqCreate name _ _ _ => name
  | _ => ""
  end.

(** The [*hookFile] objects a request creates when the delegate returned
    [lowered]: one around the delegate's file for [Open] and [Create]. *)
Definition new_files (s : Sys) (req : Request) (lowered : Reply) : list hookFile.t :=
  match lowered with
  | RFile (LowerFile f) _ =>
      [{| hookFile.file := f; hookFile.name := opened_name req;
          hookFile.hook := HookFs.hook s.(sys_fs) |}]
  | _ => []
  end.

(** The reply of a request that passes through, given what the delegate
    returned: the same reply, except that a file of the delegate is returned
    as the handle of the [*hookFile] around it. *)
Definition wrapped (s : Sys) (lowered : Result Reply) : Result Reply :=
  match lowered with
  | Ret (RFile (LowerFile _) code) => Ret (RFile (HookFile (List.length s.(sys_files))) code)
  | r => r
  end.

Definition lowered_reply (r : Result Reply) : Reply :=
  match r with
  | Ret x => x
  | _ => RVoid
  end.

Definition with_fs (s : Sys) (h : HookFs.t) : Sys :=
  {| sys_world := s.(sys_world); sys_fs := h; sys_files := s.(sys_files) |}.

(** The [*HookFs] with its hook reference set to nil. *)
Definition without_hook (h : HookFs.t) : HookFs.t :=
  {| HookFs.Original := HookFs.Original h; HookFs.Mountpoint := HookFs.Mountpoint h;
     HookFs.FsName := HookFs.FsName h; HookFs.fs := HookFs.fs h; HookFs.hook := None |}.

Definition is_fs_scope (req : Request) : bool :=
  match handle_of req with
  | None => true
  | Some _ => false
  end.

End Observations.

(** ** A concrete mount

    A call-counting delegate (the world is the number of delegate calls made
    so far) and a hook that implements the lifecycle, read, write, release,
    getattr and mkdir interfaces and nothing else. *)

Module Demo.
Local Open Scope string_scope.

Definition fuse : Fuse := {|
  World := nat;
  HookContext := nat;
  Err := Z;
  Attr := nat;
  FuseContext := unit;
  FileLock := unit;
  Time := Z;
  StatfsOut := nat;
  DirEntry := string;
  PathNodeFs := unit;
  ReadResult := list byte;
  ReadResultData := fun data => data;
  rr_nil := fun _ => false;
  rr_Size := fun rr => Z.of_nat (List.length rr);
  rr_Bytes := fun rr _ w => ((rr, OK), w);
  ToStatus := fun e => match e with None => OK | Some errno => errno end
|}.

#[local] Existing Instance fuse.

Definition ok : Eff Status := fun w => (OK, S w).

(** The delegate's file object: a read yields the bytes [AB]. *)
Definition object : nodefs.Methods := {|
  nodefs.Read := fun _ _ w => (([x41; x42], OK), S w);
  nodefs.Write := fun data _ w => ((Z.of_nat (List.length data), OK), S w);
  nodefs.Flush := ok;
  nodefs.Release := fun w => (tt, S w);
  nodefs.Fsync := fun _ => ok;
  nodefs.Truncate := fun _ => ok;
  nodefs.GetAttr := fun _ => ok;
  nodefs.Chown := fun _ _ => ok;
  nodefs.Chmod := fun _ => ok;
  nodefs.Utimens := fun _ _ => ok;
  nodefs.Allocate := fun _ _ _ => ok;
  nodefs.GetLk := fun _ _ _ _ => ok;
  nodefs.SetLk := fun _ _ _ => ok;
  nodefs.SetLkw := fun _ _ _ => ok
|}.

Definition file : nodefs.File := Some object.

Definition loopback : pathfs.FileSystem := {|
  pathfs.GetAttr := fun _ _ w => ((Some 7, OK), S w);
  pathfs.Chmod := fun _ _ _ => ok;
  pathfs.Chown := fun _ _ _ _ => ok;
  pathfs.Utimens := fun _ _ _ _ => ok;
  pathfs.Truncate := fun _ _ _ => ok;
  pathfs.Access := fun _ _ _ => ok;
  pathfs.Link := fun _ _ _ => ok;
  pathfs.Mkdir := fun _ _ _ => ok;
  pathfs.Mknod := fun _ _ _ _ => ok;
  pathfs.Rename := fun _ _ _ => ok;
  pathfs.Rmdir := fun _ _ => ok;
  pathfs.Unlink := fun _ _ => ok;
  pathfs.GetXAttr := fun _ _ _ w => (([x76], OK), S w);
  pathfs.ListXAttr := fun _ _ w => ((["user.k"], OK), S w);
  pathfs.RemoveXAttr := fun _ _ _ => ok;
  pathfs.SetXAttr := fun _ _ _ _ _ => ok;
  pathfs.OnMount := fun _ w => (tt, S w);
  pathfs.OnUnmount := fun w => (tt, S w);
  pathfs.Open := fun _ _ _ w => ((file, OK), S w);
  pathfs.Create := fun _ _ _ _ w => ((file, OK), S w);
  pathfs.OpenDir := fun _ _ w => ((["a"; "b"], OK), S w);
  pathfs.Symlink := fun _ _ _ => ok;
  pathfs.Readlink := fun _ _ w => (("/target", OK), S w);
  pathfs.StatFs := fun _ w => (Some 4096, S w)
|}.

(** [Init] fails with EIO. *)
Definition onInit : HookWithInit := {|
  Init := fun w => (Some 5%Z, w)
|}.

(** The read hook lets the delegate read and replaces its two bytes by
    three. *)
Definition onRead : HookOnRead := {|
  PreRead := fun _ _ _ w => (([], false, 0, None), w);
  PostRead := fun _ _ _ w => (([x58; x59; x5a], true, None), w)
|}.

(** The write hook short-circuits without an error. *)
Definition onWrite : HookOnWrite := {|
  PreWrite := fun _ _ _ w => ((true, 0, None), w);
  PostWrite := fun _ _ w => ((false, None), w)
|}.

Definition onRelease : HookOnRelease := {|
  PreRelease := fun _ w => ((true, 0), w);
  PostRelease := fun _ w => (true, w)
|}.

(** The getattr hook short-circuits on ["/veto"] without an error; on any
    other path it lets the delegate run and then replaces the status by
    EACCES. *)
Definition onGetAttr : HookOnGetAttr := {|
  PreGetAttr := fun path w => ((String.eqb path "/veto", 0, None), w);
  PostGetAttr := fun _ _ w => ((true, Some 13%Z), w)
|}.

(** The mkdir hook short-circuits: with EROFS on ["/ro"], without an error
    elsewhere. *)
Definition onMkdir : HookOnMkdir := {|
  PreMkdir := fun path _ w =>
    ((true, 0, if String.eqb path "/ro" then Some 30%Z else None), w);
  PostMkdir := fun _ _ w => ((false, None), w)
|}.

Definition value : HookValue := {|
  asHookWithInit := Some onInit;
  asHookOnOpen := None;
  asHookOnRead := Some onRead;
  asHookOnWrite := Some onWrite;
  asHookOnMkdir := Some onMkdir;
  asHookOnRmdir := None;
  asHookOnOpenDir := None;
  asHookOnFsync := None;
  asHookOnFlush := None;
  asHookOnRelease := Some onRelease;
  asHookOnTruncate := None;
  asHookOnGetAttr := Some onGetAttr;
  asHookOnChown := None;
  asHookOnChmod := None;
  asHookOnUtimens := None;
  asHookOnStatFs := None;
  asHookOnReadlink := None;
  asHookOnSymlink := None;
  asHookOnCreate := None;
  asHookOnAccess := None;
  asHookOnLink := None;
  asHookOnMknod := None;
  asHookOnRename := None;
  asHookOnUnlink := None;
  asHookOnGetXAttr := None;
  asHookOnListXAttr := None;
  asHookOnRemoveXAttr := None;
  asHookOnSetXAttr := None;
  asHandleHookOnTruncate := None;
  asHandleHookOnGetAttr := None;
  asHandleHookOnChown := None;
  asHandleHookOnChmod := None;
  asHandleHookOnUtimens := None;
  asHandleHookOnAllocate := None;
  asHandleHookOnGetLk := None;
  asHandleHookOnSetLk := None;
  asHandleHookOnSetLkw := None
|}.

Definition hookfs : HookFs.t := {|
  HookFs.Original := "/orig";
  HookFs.Mountpoint := "/mnt";
  HookFs.FsName := "hookfs";
  HookFs.fs := loopback;
  HookFs.hook := Some value
|}.

(** The mount before any request. *)
Definition fresh : Sys := {|
  sys_world := 0;
  sys_fs := hookfs;
  sys_files := []
|}.

(** The mount after ["/x"] was opened: handle 0 names its [*hookFile]. *)
Definition opened : Sys := final (serve (ReqOpen "/x" 0%Z None) fresh).

End Demo.

(** ** The shape of a journal *)

(** The kinds of foreign call a journal records. *)
Inductive CallKind : Type :=
| KInit | KPre | KLower | KBytes | KPost.

Section Protocol.
Context {F : Fuse}.

Definition call_kind (e : Event) : option CallKind :=
  match e with
  | EvLog _ _ | EvLogErr _ _ => None
  | EvInit _ => Some KInit
  | EvPre _ _ => Some KPre
  | EvLower _ _ => Some KLower
  | EvBytes _ _ => Some KBytes
  | EvPost _ _ => Some KPost
  end.

(** The foreign calls of a journal, in order, log entries dropped. *)
Fixpoint call_kinds (t : list Event) : list CallKind :=
  match t with
  | [] => []
  | e :: rest =>
      match call_kind e with
      | Some k => k :: call_kinds rest
      | None => call_kinds rest
      end
  end.

(** The hook and delegate calls of a journal with what they returned, in
    order, log entries dropped. *)
Definition calls (t : list Event) : list Event :=
  filter (fun e => is_some (call_kind e)) t.

(** Some [Init] returned an error. *)
Definition init_failed (t : list Event) : bool :=
  existsb (fun e => match e with
                    | EvInit (Some _) => true
                    | _ => false
                    end) t.

(** The [*HookFs] after a request with journal [t]. *)
Definition fs_after (t : list Event) (h : HookFs.t) : HookFs.t :=
  if init_failed t then without_hook h else h.

(** The mount with [hook] installed in place of the filesystem's hook. *)
Definition with_hook (s : Sys) (hook : Hook) : Sys :=
  with_fs s {| HookFs.Original := HookFs.Original s.(sys_fs);
               HookFs.Mountpoint := HookFs.Mountpoint s.(sys_fs);
               HookFs.FsName := HookFs.FsName s.(sys_fs);
               HookFs.fs := HookFs.fs s.(sys_fs);
               HookFs.hook := hook |}.

(** Two hook references answer the type assertion of method [m] alike. *)
Definition same_capability (m : Method) (h1 h2 : Hook) : Prop :=
  match m with
  | fs_GetAttr => type_assert asHookOnGetAttr h1 = type_assert asHookOnGetAttr h2
  | fs_Chmod => type_assert asHookOnChmod h1 = type_assert asHookOnChmod h2
  | fs_Chown => type_assert asHookOnChown h1 = type_assert asHookOnChown h2
  | fs_Utimens => type_assert asHookOnUtimens h1 = type_assert asHookOnUtimens h2
  | fs_Truncate => type_assert asHookOnTruncate h1 = type_assert asHookOnTruncate h2
  | fs_Access => type_assert asHookOnAccess h1 = type_assert asHookOnAccess h2
  | fs_Link => type_assert asHookOnLink h1 = type_assert asHookOnLink h2
  | fs_Mkdir => type_assert asHookOnMkdir h1 = type_assert asHookOnMkdir h2
  | fs_Mknod => type_assert asHookOnMknod h1 = type_assert asHookOnMknod h2
  | fs_Rename => type_assert asHookOnRename h1 = type_assert asHookOnRename h2
  | fs_Rmdir => type_assert asHookOnRmdir h1 = type_assert asHookOnRmdir h2
  | fs_Unlink => type_assert asHookOnUnlink h1 = type_assert asHookOnUnlink h2
  | fs_GetXAttr => type_assert asHookOnGetXAttr h1 = type_assert asHookOnGetXAttr h2
  | fs_ListXAttr => type_assert asHookOnListXAttr h1 = type_assert asHookOnListXAttr h2
  | fs_RemoveXAttr => type_assert asHookOnRemoveXAttr h1 = type_assert asHookOnRemoveXAttr h2
  | fs_SetXAttr => type_assert asHookOnSetXAttr h1 = type_assert asHookOnSetXAttr h2
  | fs_OnMount => type_assert asHookWithInit h1 = type_assert asHookWithInit h2
  | fs_OnUnmount => True
  | fs_Open => type_assert asHookOnOpen h1 = type_assert asHookOnOpen h2
  | fs_Create => type_assert asHookOnCreate h1 = type_assert asHookOnCreate h2
  | fs_OpenDir => type_assert asHookOnOpenDir h1 = type_assert asHookOnOpenDir h2
  | fs_Symlink => type_assert asHookOnSymlink h1 = type_assert asHookOnSymlink h2
  | fs_Readlink => type_assert asHookOnReadlink h1 = type_assert asHookOnReadlink h2
  | fs_StatFs => type_assert asHookOnStatFs h1 = type_assert asHookOnStatFs h2
  | file_Read => type_assert asHookOnRead h1 = type_assert asHookOnRead h2
  | file_Write => type_assert asHookOnWrite h1 = type_assert asHookOnWrite h2
  | file_Flush => type_assert asHookOnFlush h1 = type_assert asHookOnFlush h2
  | file_Release => type_assert asHookOnRelease h1 = type_assert asHookOnRelease h2
  | file_Fsync => type_assert asHookOnFsync h1 = type_assert asHookOnFsync h2
  | file_Truncate => type_assert asHandleHookOnTruncate h1 = type_assert asHandleHookOnTruncate h2
  | file_GetAttr => type_assert asHandleHookOnGetAttr h1 = type_assert asHandleHookOnGetAttr h2
  | file_Chown => type_assert asHandleHookOnChown h1 = type_assert asHandleHookOnChown h2
  | file_Chmod => type_assert asHandleHookOnChmod h1 = type_assert asHandleHookOnChmod h2
  | file_Utimens => type_assert asHandleHookOnUtimens h1 = type_assert asHandleHookOnUtimens h2
  | file_Allocate => type_assert asHandleHookOnAllocate h1 = type_assert asHandleHookOnAllocate h2
  | file_GetLk => type_assert asHandleHookOnGetLk h1 = type_assert asHandleHookOnGetLk h2
  | file_SetLk => type_assert asHandleHookOnSetLk h1 = type_assert asHandleHookOnSetLk h2
  | file_SetLkw => type_assert asHandleHookOnSetLkw h1 = type_assert asHandleHookOnSetLkw h2
  end.

End Protocol.

(** ** A declining hook over a failing delegate

    A hook that implements the open, read, chmod and fsync interfaces: it
    declines ([hooked = false]) everywhere, except that [PreFsync]
    short-circuits unless the flags it is handed are 4294967295.  The delegate [tick]s the world at every call and
    returns [rr] from a read; its [Open] and [Create] fail with ENOENT. *)

Module Probe.
Section Generic.
Context {F : Fuse}.
Local Open Scope string_scope.

Variable tick : World -> World.
Variable rr : ReadResult.
Variable ctx : HookContext.

Definition ok : Eff Status := fun w => (OK, tick w).

Definition object : nodefs.Methods := {|
  nodefs.Read := fun _ _ w => ((rr, OK), tick w);
  nodefs.Write := fun data _ w => ((Z.of_nat (List.length data), OK), tick w);
  nodefs.Flush := ok;
  nodefs.Release := fun w => (tt, tick w);
  nodefs.Fsync := fun _ => ok;
  nodefs.Truncate := fun _ => ok;
  nodefs.GetAttr := fun _ => ok;
  nodefs.Chown := fun _ _ => ok;
  nodefs.Chmod := fun _ => ok;
  nodefs.Utimens := fun _ _ => ok;
  nodefs.Allocate := fun _ _ _ => ok;
  nodefs.GetLk := fun _ _ _ _ => ok;
  nodefs.SetLk := fun _ _ _ => ok;
  nodefs.SetLkw := fun _ _ _ => ok
|}.

Definition file : nodefs.File := Some object.

Definition loopback : pathfs.FileSystem := {|
  pathfs.GetAttr := fun _ _ w => ((None, OK), tick w);
  pathfs.Chmod := fun _ _ _ => ok;
  pathfs.Chown := fun _ _ _ _ => ok;
  pathfs.Utimens := fun _ _ _ _ => ok;
  pathfs.Truncate := fun _ _ _ => ok;
  pathfs.Access := fun _ _ _ => ok;
  pathfs.Link := fun _ _ _ => ok;
  pathfs.Mkdir := fun _ _ _ => ok;
  pathfs.Mknod := fun _ _ _ _ => ok;
  pathfs.Rename := fun _ _ _ => ok;
  pathfs.Rmdir := fun _ _ => ok;
  pathfs.Unlink := fun _ _ => ok;
  pathfs.GetXAttr := fun _ _ _ w => (([], OK), tick w);
  pathfs.ListXAttr := fun _ _ w => (([], OK), tick w);
  pathfs.RemoveXAttr := fun _ _ _ => ok;
  pathfs.SetXAttr := fun _ _ _ _ _ => ok;
  pathfs.OnMount := fun _ w => (tt, tick w);
  pathfs.OnUnmount := fun w => (tt, tick w);
  pathfs.Open := fun _ _ _ w => ((file, 2%Z), tick w);
  pathfs.Create := fun _ _ _ _ w => ((file, 2%Z), tick w);
  pathfs.OpenDir := fun _ _ w => (([], OK), tick w);
  pathfs.Symlink := fun _ _ _ => ok;
  pathfs.Readlink := fun _ _ w => (("", OK), tick w);
  pathfs.StatFs := fun _ w => (None, tick w)
|}.

Definition onOpen : HookOnOpen := {|
  PreOpen := fun _ _ w => ((false, ctx, None), w);
  PostOpen := fun _ _ w => ((false, None), w)
|}.

Definition onRead : HookOnRead := {|
  PreRead := fun _ _ _ w => (([], false, ctx, None), w);
  PostRead := fun _ buf _ w => ((buf, false, None), w)
|}.

Definition onChmod : HookOnChmod := {|
  PreChmod := fun _ _ w => ((false, ctx, None), w);
  PostChmod := fun _ _ w => ((false, None), w)
|}.

Definition onFsync : HookOnFsync := {|
  PreFsync := fun _ flags w => ((negb (Z.eqb flags 4294967295), ctx, None), w);
  PostFsync := fun _ _ w => ((false, None), w)
|}.

Definition value : HookValue := {|
  asHookWithInit := None;
  asHookOnOpen := Some onOpen;
  asHookOnRead := Some onRead;
  asHookOnWrite := None;
  asHookOnMkdir := None;
  asHookOnRmdir := None;
  asHookOnOpenDir := None;
  asHookOnFsync := Some onFsync;
  asHookOnFlush := None;
  asHookOnRelease := None;
  asHookOnTruncate := None;
  asHookOnGetAttr := None;
  asHookOnChown := None;
  asHookOnChmod := Some onChmod;
  asHookOnUtimens := None;
  asHookOnStatFs := None;
  asHookOnReadlink := None;
  asHookOnSymlink := None;
  asHookOnCreate := None;
  asHookOnAccess := None;
  asHookOnLink := None;
  asHookOnMknod := None;
  asHookOnRename := None;
  asHookOnUnlink := None;
  asHookOnGetXAttr := None;
  asHookOnListXAttr := None;
  asHookOnRemoveXAttr := None;
  asHookOnSetXAttr := None;
  asHandleHookOnTruncate := None;
  asHandleHookOnGetAttr := None;
  asHandleHookOnChown := None;
  asHandleHookOnChmod := None;
  asHandleHookOnUtimens := None;
  asHandleHookOnAllocate := None;
  asHandleHookOnGetLk := None;
  asHandleHookOnSetLk := None;
  asHandleHookOnSetLkw := None
|}.

Definition handle : hookFile.t := {|
  hookFile.file := file;
  hookFile.name := "/x";
  hookFile.hook := Some value
|}.

(** The mount in world [w], with one [*hookFile] behind handle 0. *)
Definition mount (w : World) : Sys := {|
  sys_world := w;
  sys_fs := {| HookFs.Original := "/orig"; HookFs.Mountpoint := "/mnt";
               HookFs.FsName := "hookfs"; HookFs.fs := loopback;
               HookFs.hook := Some value |};
  sys_files := [handle]
|}.

End Generic.
End Probe.

(** The probe over the call-counting world of [Demo]. *)
Module Declining.

Definition object : nodefs.Methods (F := Demo.fuse) :=
  Probe.object (F := Demo.fuse) S [x41; x42].

Definition onFsync : HookOnFsync (F := Demo.fuse) :=
  Probe.onFsync (F := Demo.fuse) 0.

Definition handle : hookFile.t (F := Demo.fuse) :=
  Probe.handle (F := Demo.fuse) S [x41; x42] 0.

Definition mount : Sys (F := Demo.fuse) :=
  Probe.mount (F := Demo.fuse) S [x41; x42] 0 0.

End Declining.

(** The probe over a go-fuse whose read results cannot be read into memory:
    [Bytes] fails with EIO. *)
Module Faulty.

Definition fuse : Fuse := {|
  World := nat;
  HookContext := nat;
  Err := Z;
  Attr := nat;
  FuseContext := unit;
  FileLock := unit;
  Time := Z;
  StatfsOut := nat;
  DirEntry := string;
  PathNodeFs := unit;
  ReadResult := list byte;
  ReadResultData := fun data => data;
  rr_nil := fun _ => false;
  rr_Size := fun rr => Z.of_nat (List.length rr);
  rr_Bytes := fun _ _ w => (([], 5%Z), w);
  ToStatus := fun e => match e with None => OK | Some errno => errno end
|}.

Definition object : nodefs.Methods (F := fuse) :=
  Probe.object (F := fuse) S [x41; x42].

Definition onRead : HookOnRead (F := fuse) :=
  Probe.onRead (F := fuse) 0.

Definition handle : hookFile.t (F := fuse) :=
  Probe.handle (F := fuse) S [x41; x42] 0.

Definition mount : Sys (F := fuse) :=
  Probe.mount (F := fuse) S [x41; x42] 0 0.

End Faulty.


(** * Verification *)

Unset Implicit Arguments.

(** ** Symbolic execution of a request *)

(** Unfold a served request down to the foreign calls it makes. *)
Ltac unfold_methods :=
  cbv [serve direct lower lower_file on_fs on_open on_mount on_file outcome final journal
       HookFs.GetAttr HookFs.Chmod HookFs.Chown HookFs.Utimens HookFs.Truncate HookFs.Access
       HookFs.Link HookFs.Mkdir HookFs.Mknod HookFs.Rename HookFs.Rmdir HookFs.Unlink
       HookFs.GetXAttr HookFs.ListXAttr HookFs.RemoveXAttr HookFs.SetXAttr HookFs.OnMount
       HookFs.OnUnmount HookFs.Open HookFs.Create HookFs.OpenDir HookFs.Symlink
       HookFs.Readlink HookFs.StatFs
       hookFile.Read hookFile.Write hookFile.Flush hookFile.Release hookFile.Fsync
       hookFile.Truncate hookFile.GetAttr hookFile.Chown hookFile.Chmod hookFile.Utimens
       hookFile.Allocate hookFile.GetLk hookFile.SetLk hookFile.SetLkw
       hookFile.make hookFile.Size
       newHookFile bind ret emit panic call callPre callPost callLower callFile
       log.Trace log.Debug log.Warn log.Error log.Fatal log.Panic
       pre3 pre4 pre2 post2 post3 rvoid rlowerfile uncurry reply_of with_world
       hooked_request consulted implements method_of handle_of is_some
       fst snd].

(** Case analysis on the innermost scrutinee that blocks evaluation: a type
    assertion, the answer of a foreign call, a flag, an error. *)
Ltac step :=
  match goal with
  | |- context [match ?x with _ => _ end] =>
      lazymatch x with
      | context [match _ with _ => _ end] => fail
      | _ => destruct x eqn:?
      end
  end.

Ltac run_request req := destruct req; unfold_methods; repeat step; cbn [app].

(** Use a membership fact about a journal that is now an explicit list. *)
Ltac in_journal H :=
  cbn [In app] in H;
  repeat match type of H with _ \/ _ => destruct H as [H | H] end;
  try contradiction; try discriminate H;
  try (injection H as; subst).

(** Unfold, next to a served request, the Before hook and the delegate call
    it is compared with. *)
Ltac unfold_served :=
  cbv [before ask option_map ctx3 ctx4 ctx2 held_name];
  unfold_methods;
  cbv [sys_world sys_fs sys_files].

(** Take apart the equations between constructors among the hypotheses, and
    identify the answers of one foreign call made twice. *)
Ltac simplify_eqs :=
  repeat match goal with
  | H : ?x = ?x |- _ => clear H
  | H : _ = _ |- _ => discriminate H
  | H : Some _ = Some _ |- _ => injection H; clear H; intros; subst
  | H : (_, _) = (_, _) |- _ => injection H; clear H; intros; subst
  | H : Ret _ = Ret _ |- _ => injection H; clear H; intros; subst
  | H1 : ?t = _, H2 : ?t = _ |- _ => rewrite H1 in H2
  end.

(** Evaluate the After hook of hypothesis [H] with the answers the served
    request got from the same calls. *)
Ltac use_after H :=
  cbv [after answer option_map consulted handle_of reply_code read_bytes
       post2 post3 sys_world sys_fs sys_files] in H;
  repeat (match goal with
          | E : ?t = _ |- _ => tryif constr_eq E H then fail else rewrite E in H
          end; cbv beta iota zeta in H);
  simplify_eqs.

Section ShortCircuit.
Context {F : Fuse}.

(** C1 (amended).  For every method other than [Release]: when the Before
    hook answers [hooked = true], the method ends at once.  The delegate is
    not called and the After hook is not called: the outside world is left
    as the Before hook left it.  The method returns the Before hook's result
    (the bytes for a read, the empty result of its shape otherwise) with the
    status of the Before hook's error, or, for Mkdir, Rmdir, Open and OpenDir
    with a nil error, the process exits. *)
Theorem prehooked_skips_delegate_and_after :
  forall (req : Request) (s : Sys) (a : Answer) (ctx : HookContext) (w' : World),
    before req s = Some (a, ctx, w') ->
    hooked a = true ->
    method_of req <> file_Release ->
    outcome (serve req s) = short_outcome (method_of req) a /\
    final (serve req s) = with_world s w' /\
    lower_calls (journal (serve req s)) = 0 /\
    post_calls (journal (serve req s)) = 0.
Proof.
  intros req s a ctx w'. destruct s as [w h files].
  destruct req; unfold_served; repeat step; cbn [app];
    intros Hb Hh Hm; simplify_eqs; cbn [hooked] in Hh; simplify_eqs;
    try congruence.
  all: repeat split; reflexivity.
Qed.

End ShortCircuit.

Section ShortCircuitExamples.
#[local] Existing Instance Demo.fuse.

(** C1 as stated fails for Mkdir: its Before hook answers [hooked = true]
    with a nil error, and the call does not return the status of that error:
    the process exits. *)
Lemma mkdir_prehooked_without_error_exits :
  before (ReqMkdir "/new" 493%Z None) Demo.fresh = Some (Verdict true None, 0, 0) /\
  In (EvPre fs_Mkdir (Verdict true None))
     (journal (serve (ReqMkdir "/new" 493%Z None) Demo.fresh)) /\
  outcome (serve (ReqMkdir "/new" 493%Z None) Demo.fresh) = Exited /\
  outcome (serve (ReqMkdir "/new" 493%Z None) Demo.fresh) <>
    Ret (RStatus (ToStatus None)).
Proof.
  vm_compute. repeat split; try tauto. discriminate.
Qed.

(** A short-circuited write and a short-circuited getattr: the world is the
    one the request found, no delegate call counted. *)
Lemma prehooked_skips_delegate_and_after_witness :
  (outcome (serve (ReqFileWrite 0 [x68; x69] 0%Z) Demo.opened) = Ret (RWritten 0%Z OK) /\
   final (serve (ReqFileWrite 0 [x68; x69] 0%Z) Demo.opened) = Demo.opened /\
   lower_calls (journal (serve (ReqFileWrite 0 [x68; x69] 0%Z) Demo.opened)) = 0 /\
   post_calls (journal (serve (ReqFileWrite 0 [x68; x69] 0%Z) Demo.opened)) = 0) /\
  (outcome (serve (ReqGetAttr "/veto" None) Demo.fresh) = Ret (RAttr None OK) /\
   final (serve (ReqGetAttr "/veto" None) Demo.fresh) = Demo.fresh /\
   lower_calls (journal (serve (ReqGetAttr "/veto" None) Demo.fresh)) = 0 /\
   post_calls (journal (serve (ReqGetAttr "/veto" None) Demo.fresh)) = 0).
Proof.
  split.
  - apply (prehooked_skips_delegate_and_after
             (ReqFileWrite 0 [x68; x69] 0%Z) Demo.opened (Verdict (F := Demo.fuse) true None) 0 1).
    + reflexivity.
    + reflexivity.
    + discriminate.
  - apply (prehooked_skips_delegate_and_after
             (ReqGetAttr "/veto" None) Demo.fresh (Verdict (F := Demo.fuse) true None) 0 0).
    + reflexivity.
    + reflexivity.
    + discriminate.
Defined.

End ShortCircuitExamples.

Section FatalCheck.
Context {F : Fuse}.

(** C2.  When the Before hook answers [hooked = true], the process exits
    exactly when the method is Mkdir, Rmdir, Open or OpenDir and the hook's
    error is nil: [log.Fatal] is reached once, in the world the Before hook
    left, the delegate not called.  When one of these four has a Before hook
    that answers [hooked = true] with an error, the method returns normally
    with that error's status, nothing logged at Fatal or Panic level. *)
Theorem fatal_exactly_on_hooked_without_error :
  forall (req : Request) (s : Sys) (a : Answer) (ctx : HookContext) (w' : World),
    before req s = Some (a, ctx, w') ->
    hooked a = true ->
    (outcome (serve req s) = Exited <->
       fatal_on_success (method_of req) = true /\ answer_err a = None) /\
    (outcome (serve req s) = Exited ->
       final (serve req s) = with_world s w' /\
       abort_logs (journal (serve req s)) = 1 /\
       lower_calls (journal (serve req s)) = 0) /\
    (fatal_on_success (method_of req) = true ->
     answer_err a <> None ->
       outcome (serve req s) = Ret (short_reply (method_of req) a) /\
       final (serve req s) = with_world s w' /\
       abort_logs (journal (serve req s)) = 0).
Proof.
  intros req s a ctx w'. destruct s as [w h files].
  destruct req; unfold_served; repeat step; cbn [app];
    intros Hb Hh; simplify_eqs; cbn [hooked] in Hh; simplify_eqs;
    cbn [fatal_on_success answer_err].
  all: split; [split; [intros H; try discriminate H; split; reflexivity
                      | intros [H1 H2]; first [reflexivity | discriminate H1 | discriminate H2]]
              | split; [intros H; try discriminate H; repeat split; reflexivity
                       | intros H1 H2; first [discriminate H1 | congruence
                                             | repeat split; reflexivity]]].
Qed.

End FatalCheck.

Section FatalCheckExamples.
#[local] Existing Instance Demo.fuse.

(** Mkdir short-circuited without an error exits; short-circuited with
    EROFS it returns EROFS. *)
Lemma fatal_exactly_on_hooked_without_error_witness :
  outcome (serve (ReqMkdir "/new" 493%Z None) Demo.fresh) = Exited /\
  (outcome (serve (ReqMkdir "/ro" 493%Z None) Demo.fresh) = Ret (RStatus 30%Z) /\
   final (serve (ReqMkdir "/ro" 493%Z None) Demo.fresh) = Demo.fresh /\
   abort_logs (journal (serve (ReqMkdir "/ro" 493%Z None) Demo.fresh)) = 0).
Proof.
  split.
  - apply (proj1 (fatal_exactly_on_hooked_without_error
                    (ReqMkdir "/new" 493%Z None) Demo.fresh (Verdict (F := Demo.fuse) true None) 0 0
                    eq_refl eq_refl)).
    split; reflexivity.
  - apply (proj2 (proj2 (fatal_exactly_on_hooked_without_error
                           (ReqMkdir "/ro" 493%Z None) Demo.fresh
                           (Verdict (F := Demo.fuse) true (Some 30%Z)) 0 0 eq_refl eq_refl))).
    + reflexivity.
    + discriminate.
Defined.

(** A short-circuited write without an error does not exit. *)
Example write_prehooked_without_error_returns :
  before (ReqFileWrite 0 [x68; x69] 0%Z) Demo.opened = Some (Verdict true None, 0, 1) /\
  outcome (serve (ReqFileWrite 0 [x68; x69] 0%Z) Demo.opened) = Ret (RWritten 0%Z OK).
Proof. split; reflexivity. Qed.

End FatalCheckExamples.

Section Replacement.
Context {F : Fuse}.

(** C3 (amended).  When the Before hook lets the request through, the
    delegate replies, and the After hook answers [hooked = true], the status
    returned is the status of the After hook's error and the delegate's status
    is discarded; the result returned is the After hook's bytes for a read, a
    zero count for a write, and for every other method the delegate's own
    result ([Open] and [Create] return the new [*hookFile] around the
    delegate's file), as those After hooks output no result.  The outside
    world is left as the After hook left it. *)
Theorem posthooked_replaces_status :
  forall (req : Request) (s : Sys) (a0 : Answer) (ctx : HookContext) (w1 : World)
         (lowered : Reply) (w2 : World) (a : Answer) (w3 : World),
    before req s = Some (a0, ctx, w1) ->
    hooked a0 = false \/ method_of req = file_Release ->
    direct req (with_world s w1) = (Ret lowered, w2) ->
    after req s lowered ctx w2 = Some (a, w3) ->
    hooked a = true ->
    outcome (serve req s) = Ret (post_reply s a lowered) /\
    final (serve req s) =
      {| sys_world := w3; sys_fs := sys_fs s;
         sys_files := sys_files s ++ new_files s req lowered |}.
Proof.
  intros req s a0 ctx w1 lowered w2 a w3. destruct s as [w h files].
  destruct req; unfold_served; repeat step; cbn [app];
    intros Hb Hd Hl Ha Hh; simplify_eqs;
    cbn [hooked] in Hd; destruct Hd as [Hd | Hd]; try discriminate Hd;
    use_after Ha; cbn [hooked] in Hh; simplify_eqs.
  all: cbn [post_reply new_files opened_name answer_err answer_buf sys_files sys_fs];
    rewrite ?app_nil_r; split; reflexivity.
Qed.

End Replacement.

Section ReplacementExamples.
#[local] Existing Instance Demo.fuse.

(** C3 as stated fails for GetAttr: the After hook answers [hooked = true]
    with EACCES, and the attribute returned is the one the delegate produced,
    together with the hook's status. *)
Lemma getattr_posthooked_returns_delegate_attr :
  In (EvLower fs_GetAttr (RAttr (Some 7) OK))
     (journal (serve (ReqGetAttr "/x" None) Demo.fresh)) /\
  In (EvPost fs_GetAttr (Verdict true (Some 13%Z)))
     (journal (serve (ReqGetAttr "/x" None) Demo.fresh)) /\
  after (ReqGetAttr "/x" None) Demo.fresh (RAttr (Some 7) OK) 0 1 =
    Some (Verdict true (Some 13%Z), 1) /\
  outcome (serve (ReqGetAttr "/x" None) Demo.fresh) = Ret (RAttr (Some 7) 13%Z).
Proof.
  vm_compute. repeat split; tauto.
Qed.

(** A read whose After hook replaces the delegate's two bytes by three, and
    a getattr whose After hook replaces the delegate's status. *)
Lemma posthooked_replaces_status_witness :
  (outcome (serve (ReqFileRead 0 [x00; x00] 0%Z) Demo.opened) = Ret (RRead [x58; x59; x5a] OK) /\
   final (serve (ReqFileRead 0 [x00; x00] 0%Z) Demo.opened) =
     {| sys_world := 2; sys_fs := sys_fs Demo.opened; sys_files := sys_files Demo.opened ++ [] |}) /\
  (outcome (serve (ReqGetAttr "/x" None) Demo.fresh) = Ret (RAttr (Some 7) 13%Z) /\
   final (serve (ReqGetAttr "/x" None) Demo.fresh) =
     {| sys_world := 1; sys_fs := sys_fs Demo.fresh; sys_files := sys_files Demo.fresh ++ [] |}).
Proof.
  split.
  - apply (posthooked_replaces_status (ReqFileRead 0 [x00; x00] 0%Z) Demo.opened
             (VerdictData (F := Demo.fuse) [] false None) 0 1
             (RRead (F := Demo.fuse) [x41; x42] OK) 2
             (VerdictData (F := Demo.fuse) [x58; x59; x5a] true None) 2).
    + reflexivity.
    + left. reflexivity.
    + reflexivity.
    + reflexivity.
    + reflexivity.
  - apply (posthooked_replaces_status (ReqGetAttr "/x" None) Demo.fresh
             (Verdict (F := Demo.fuse) false None) 0 0
             (RAttr (F := Demo.fuse) (Some 7) OK) 1
             (Verdict (F := Demo.fuse) true (Some 13%Z)) 1).
    + reflexivity.
    + left. reflexivity.
    + reflexivity.
    + reflexivity.
    + reflexivity.
Defined.

End ReplacementExamples.

Section Passthrough.
Context {F : Fuse}.

(** A request whose method finds no hook makes one delegate call and no hook
    call, and leaves the [*HookFs] as it was. *)
Lemma unhooked_serve :
  forall (req : Request) (s : Sys),
    hooked_request req s = false ->
    pre_calls (journal (serve req s)) = 0 /\
    post_calls (journal (serve req s)) = 0 /\
    init_calls (journal (serve req s)) = 0 /\
    outcome (serve req s) = wrapped s (fst (direct req s)) /\
    sys_world (final (serve req s)) = snd (direct req s) /\
    sys_files (final (serve req s)) =
      sys_files s ++ new_files s req (lowered_reply (fst (direct req s))) /\
    sys_fs (final (serve req s)) = sys_fs s.
Proof.
  intros req s. destruct s as [w h files].
  run_request req; intros H; try discriminate H.
  all: cbn [wrapped lowered_reply new_files opened_name sys_files sys_fs sys_world];
    rewrite ?app_nil_r; repeat split; reflexivity.
Qed.

(** C4 (amended).  When the hook reference a method consults does not
    implement the method's interface (it implements none, or it is nil), no
    hook method is called, the outside world is left as by the delegate's
    method called directly, and the reply is the delegate's; except that
    [Open] and [Create] return, in place of the delegate's file, a new
    [*hookFile] around it that captures the path and the hook reference. *)
Theorem unhooked_request_passes_through :
  forall (req : Request) (s : Sys),
    hooked_request req s = false ->
    pre_calls (journal (serve req s)) = 0 /\
    post_calls (journal (serve req s)) = 0 /\
    init_calls (journal (serve req s)) = 0 /\
    outcome (serve req s) = wrapped s (fst (direct req s)) /\
    sys_world (final (serve req s)) = snd (direct req s) /\
    sys_files (final (serve req s)) =
      sys_files s ++ new_files s req (lowered_reply (fst (direct req s))).
Proof.
  intros req s H. pose proof (unhooked_serve req s H) as P. tauto.
Qed.

End Passthrough.

Section PassthroughExamples.
#[local] Existing Instance Demo.fuse.

(** C4 as stated fails for [Open]: the hook does not implement the open
    interface, yet what is returned is not the delegate's file but a
    [*hookFile], and a read through it is answered by the hook's bytes where
    the delegate's file answers with its own. *)
Lemma open_unhooked_returns_wrapper :
  hooked_request (ReqOpen "/x" 0%Z None) Demo.fresh = false /\
  fst (direct (ReqOpen "/x" 0%Z None) Demo.fresh) = Ret (RFile (LowerFile Demo.file) OK) /\
  outcome (serve (ReqOpen "/x" 0%Z None) Demo.fresh) = Ret (RFile (HookFile 0) OK) /\
  outcome (serve (ReqOpen "/x" 0%Z None) Demo.fresh) <> fst (direct (ReqOpen "/x" 0%Z None) Demo.fresh) /\
  outcome (serve (ReqFileRead 0 [x00; x00] 0%Z) Demo.opened) = Ret (RRead [x58; x59; x5a] OK) /\
  fst (nodefs.Read Demo.object [x00; x00] 0%Z 1) = ([x41; x42], OK).
Proof.
  repeat split; try reflexivity. vm_compute. discriminate.
Qed.

Lemma unhooked_request_passes_through_witness :
  pre_calls (journal (serve (ReqChmod "/x" 420%Z None) Demo.fresh)) = 0 /\
  post_calls (journal (serve (ReqChmod "/x" 420%Z None) Demo.fresh)) = 0 /\
  init_calls (journal (serve (ReqChmod "/x" 420%Z None) Demo.fresh)) = 0 /\
  outcome (serve (ReqChmod "/x" 420%Z None) Demo.fresh) = Ret (RStatus OK) /\
  sys_world (final (serve (ReqChmod "/x" 420%Z None) Demo.fresh)) = 1 /\
  sys_files (final (serve (ReqChmod "/x" 420%Z None) Demo.fresh)) = [] ++ [].
Proof.
  apply (unhooked_request_passes_through (ReqChmod "/x" 420%Z None) Demo.fresh).
  reflexivity.
Defined.

End PassthroughExamples.

Section Lifecycle.
Context {F : Fuse}.

Lemma nil_implements_nothing : forall m : Method, implements None m = false.
Proof. destruct m; reflexivity. Qed.

Lemma fs_scope_consults_fs_hook :
  forall (req : Request) (s : Sys),
    is_fs_scope req = true -> consulted req s = HookFs.hook (sys_fs s).
Proof.
  intros req s H. unfold consulted, is_fs_scope in *.
  destruct (handle_of req); [discriminate H | reflexivity].
Qed.

(** With no hook installed, no request changes the [*HookFs]. *)
Lemma disabled_stays_disabled :
  forall (req : Request) (s : Sys),
    HookFs.hook (sys_fs s) = None ->
    sys_fs (final (serve req s)) = sys_fs s.
Proof.
  intros req s H. destruct s as [w h files]. cbn [sys_fs] in H.
  run_request req; cbn [sys_fs]; try reflexivity.
  all: cbn [sys_fs] in *; unfold type_assert in *; rewrite H in *; discriminate.
Qed.

Lemma disabled_for_the_mount :
  forall (reqs : list Request) (s : Sys),
    HookFs.hook (sys_fs s) = None ->
    sys_fs (serve_all reqs s) = sys_fs s.
Proof.
  induction reqs as [|req rest IH]; intros s H; cbn [serve_all].
  - reflexivity.
  - rewrite IH; rewrite disabled_stays_disabled by exact H; [reflexivity | exact H].
Qed.

Lemma failed_init_mounts :
  forall (s : Sys) (nodeFs : option PathNodeFs) (e : Err),
    In (EvInit (Some e)) (journal (serve (ReqOnMount nodeFs) s)) ->
    outcome (serve (ReqOnMount nodeFs) s) = Ret RVoid /\
    abort_logs (journal (serve (ReqOnMount nodeFs) s)) = 0 /\
    sys_fs (final (serve (ReqOnMount nodeFs) s)) = without_hook (sys_fs s).
Proof.
  intros s nodeFs e. unfold_methods. repeat step; cbn [app]; intros Hin; in_journal Hin.
  repeat split; reflexivity.
Qed.

(** C5.  When the hook implements the lifecycle interface and its [Init]
    returns an error at mount time, [OnMount] still returns normally and
    leaves the [*HookFs] with a nil hook reference; whatever requests are
    served afterwards, the [*HookFs] stays that of a mount with no hook
    installed, and every filesystem-scope request is served by the delegate
    alone: no hook method is called, the world is left as by the delegate's
    method called directly, and the reply is the delegate's (the file a
    delegate's [Open] or [Create] returns comes wrapped in a [*hookFile], as
    with no hook installed). *)
Theorem failed_init_disables_hook :
  forall (s : Sys) (nodeFs : option PathNodeFs) (e : Err),
    In (EvInit (Some e)) (journal (serve (ReqOnMount nodeFs) s)) ->
    outcome (serve (ReqOnMount nodeFs) s) = Ret RVoid /\
    abort_logs (journal (serve (ReqOnMount nodeFs) s)) = 0 /\
    forall (reqs : list Request) (req : Request),
      is_fs_scope req = true ->
      let s' := serve_all reqs (final (serve (ReqOnMount nodeFs) s)) in
      sys_fs s' = without_hook (sys_fs s) /\
      pre_calls (journal (serve req s')) = 0 /\
      post_calls (journal (serve req s')) = 0 /\
      init_calls (journal (serve req s')) = 0 /\
      outcome (serve req s') = wrapped s' (fst (direct req s')) /\
      sys_world (final (serve req s')) = snd (direct req s').
Proof.
  intros s nodeFs e Hin.
  destruct (failed_init_mounts s nodeFs e Hin) as (Hout & Hlog & Hfs).
  split; [exact Hout | split; [exact Hlog |]].
  intros reqs req Hscope s'.
  assert (Hs' : sys_fs s' = without_hook (sys_fs s)).
  { unfold s'. rewrite disabled_for_the_mount; rewrite Hfs; reflexivity. }
  assert (Hun : hooked_request req s' = false).
  { unfold hooked_request. rewrite fs_scope_consults_fs_hook by exact Hscope.
    rewrite Hs'. apply nil_implements_nothing. }
  pose proof (unhooked_serve req s' Hun) as P. tauto.
Qed.

End Lifecycle.

Section LifecycleExamples.
#[local] Existing Instance Demo.fuse.

Lemma failed_init_disables_hook_witness :
  outcome (serve (ReqOnMount None) Demo.fresh) = Ret RVoid /\
  outcome (serve (ReqGetAttr "/veto" None)
             (serve_all [ReqOpen "/x" 0%Z None] (final (serve (ReqOnMount None) Demo.fresh)))) =
    Ret (RAttr (Some 7) OK).
Proof.
  pose proof (failed_init_disables_hook Demo.fresh None 5%Z) as H.
  destruct H as (Hout & _ & Hafter).
  - vm_compute. tauto.
  - split; [exact Hout |].
    destruct (Hafter [ReqOpen "/x" 0%Z None] (ReqGetAttr "/veto" None) eq_refl)
      as (_ & _ & _ & _ & Hreply & _).
    exact Hreply.
Defined.

End LifecycleExamples.

Section Snapshot.
Context {F : Fuse}.

(** Serving a request only ever adds [*hookFile] objects. *)
Lemma serve_extends_files :
  forall (req : Request) (s : Sys),
    exists new : list hookFile.t,
      sys_files (final (serve req s)) = sys_files s ++ new.
Proof.
  intros req s. destruct s as [w h files].
  run_request req; cbn [sys_files];
    first [ exists []; rewrite app_nil_r; reflexivity | eexists; reflexivity ].
Qed.

Lemma serve_keeps_handle :
  forall (req : Request) (s : Sys) (fh : nat) (h : hookFile.t),
    nth_error (sys_files s) fh = Some h ->
    nth_error (sys_files (final (serve req s))) fh = Some h.
Proof.
  intros req s fh h H. destruct (serve_extends_files req s) as [new ->].
  rewrite nth_error_app1; [exact H |].
  apply nth_error_Some. rewrite H. discriminate.
Qed.

Lemma serve_all_keeps_handle :
  forall (reqs : list Request) (s : Sys) (fh : nat) (h : hookFile.t),
    nth_error (sys_files s) fh = Some h ->
    nth_error (sys_files (serve_all reqs s)) fh = Some h.
Proof.
  induction reqs as [|req rest IH]; intros s fh h H; cbn [serve_all].
  - exact H.
  - apply IH. apply serve_keeps_handle. exact H.
Qed.

Lemma open_captures_hook :
  forall (req : Request) (s : Sys) (fh : nat) (code : Status),
    outcome (serve req s) = Ret (RFile (HookFile fh) code) ->
    nth_error (sys_files s) fh = None /\
    exists f : nodefs.File,
      nth_error (sys_files (final (serve req s))) fh =
        Some {| hookFile.file := f; hookFile.name := opened_name req;
                hookFile.hook := HookFs.hook (sys_fs s) |}.
Proof.
  intros req s fh code. destruct s as [w h files].
  run_request req; intros H; try discriminate H; injection H as <- _;
    cbn [sys_files sys_fs opened_name];
    (split; [apply nth_error_None; apply Nat.le_refl |]);
    eexists; rewrite nth_error_app2 by apply Nat.le_refl;
    rewrite Nat.sub_diag; reflexivity.
Qed.

Lemma handle_request_ignores_fs :
  forall (req : Request) (s : Sys) (h' : HookFs.t),
    is_fs_scope req = false ->
    serve req (with_fs s h') =
      (outcome (serve req s), with_fs (final (serve req s)) h', journal (serve req s)).
Proof.
  intros req s h' H. destruct s as [w h files].
  destruct req; try discriminate H; clear H;
    unfold_methods; cbn [with_fs sys_files sys_world sys_fs];
    repeat step; reflexivity.
Qed.

(** C6.  The [*hookFile] that [Open] or [Create] returns is a new object
    whose hook reference is the filesystem's hook reference at that moment;
    no request served afterwards, [OnMount] setting the filesystem's
    reference to nil included, changes any existing [*hookFile]; and a
    handle-scope request is served from the [*hookFile] alone, whatever the
    [*HookFs] holds by then. *)
Theorem handle_hook_is_a_snapshot :
  forall (s : Sys),
    (forall (req : Request) (fh : nat) (code : Status),
       outcome (serve req s) = Ret (RFile (HookFile fh) code) ->
       nth_error (sys_files s) fh = None /\
       exists f : nodefs.File,
         nth_error (sys_files (final (serve req s))) fh =
           Some {| hookFile.file := f; hookFile.name := opened_name req;
                   hookFile.hook := HookFs.hook (sys_fs s) |}) /\
    (forall (reqs : list Request) (fh : nat) (h : hookFile.t),
       nth_error (sys_files s) fh = Some h ->
       nth_error (sys_files (serve_all reqs s)) fh = Some h) /\
    (forall (req : Request) (h' : HookFs.t),
       is_fs_scope req = false ->
       serve req (with_fs s h') =
         (outcome (serve req s), with_fs (final (serve req s)) h', journal (serve req s))).
Proof.
  intros s. split; [| split].
  - intros req fh code. apply open_captures_hook.
  - intros reqs fh h. apply serve_all_keeps_handle.
  - intros req h'. apply handle_request_ignores_fs.
Qed.

End Snapshot.

Section SnapshotExamples.
#[local] Existing Instance Demo.fuse.

(** The handle opened before the mount-time [Init] failed keeps the hook:
    the filesystem's reference is nil afterwards, the handle's is not. *)
Lemma handle_hook_is_a_snapshot_witness :
  HookFs.hook (sys_fs (serve_all [ReqOnMount None] Demo.opened)) = None /\
  nth_error (sys_files (serve_all [ReqOnMount None] Demo.opened)) 0 =
    Some {| hookFile.file := Demo.file; hookFile.name := "/x";
            hookFile.hook := Some Demo.value |}.
Proof.
  split; [reflexivity |].
  apply (proj1 (proj2 (handle_hook_is_a_snapshot Demo.opened)) [ReqOnMount None] 0).
  reflexivity.
Defined.

End SnapshotExamples.

Section Write.
Context {F : Fuse}.
Local Open Scope string_scope.

(** C7.  When the write hook's [PreWrite] answers [hooked = true], [Write]
    returns a byte count of zero, whatever the data, with the status of
    [PreWrite]'s error; the delegate is not called. *)
Theorem write_prehooked_reports_zero :
  forall (h : hookFile.t) (hook : HookOnWrite) (data : list byte) (off : Z)
         (w w' : World) (ctx : HookContext) (e : error),
    type_assert asHookOnWrite (hookFile.hook h) = Some hook ->
    PreWrite hook (hookFile.name h) data off w = ((true, ctx, e), w') ->
    hookFile.Write h data off w =
      (Ret (0%Z, ToStatus e), w',
       [EvLog TraceLevel "f.Write"; EvPre file_Write (Verdict true e);
        EvLog DebugLevel "Write: Prehooked"]).
Proof.
  intros h hook data off w w' ctx e Hhook Hpre.
  unfold hookFile.Write. rewrite Hhook.
  cbv [bind ret emit call callPre log.Trace log.Debug pre3].
  rewrite Hpre. reflexivity.
Qed.

End Write.

Section WriteExamples.
#[local] Existing Instance Demo.fuse.

Lemma write_prehooked_reports_zero_witness :
  hookFile.Write {| hookFile.file := Demo.file; hookFile.name := "/x";
                    hookFile.hook := Some Demo.value |}
                 [x68; x65; x6c; x6c; x6f] 0%Z 0 =
    (Ret (0%Z, OK), 0,
     [EvLog TraceLevel "f.Write"; EvPre file_Write (Verdict true None);
      EvLog DebugLevel "Write: Prehooked"]).
Proof.
  apply (write_prehooked_reports_zero
           {| hookFile.file := Demo.file; hookFile.name := "/x";
              hookFile.hook := Some Demo.value |}
           Demo.onWrite [x68; x65; x6c; x6c; x6f] 0%Z 0 0 0 None);
    reflexivity.
Defined.

End WriteExamples.

Section Release.
Context {F : Fuse}.
Local Open Scope string_scope.

(** C8.  [Release] on a [*hookFile] around a delegate file releases that
    file exactly once, whatever [PreRelease] and [PostRelease] answer: with a
    release hook the delegate's [Release] runs once in the world
    [PreRelease] left, between the two hooks, and [PostRelease] runs in the
    world it left; without one it is the only call.  [Release] returns in
    both cases, and the flags decide only whether a line is logged.  Around
    the nil file there is no delegate file to release: [Release] panics
    where it would call it, whatever [PreRelease] answered. *)
Theorem release_calls_delegate_once :
  forall (h : hookFile.t) (w : World),
    match hookFile.file h, type_assert asHookOnRelease (hookFile.hook h) with
    | Some f, Some hook =>
        let '((prehooked, ctx), w1) := PreRelease hook (hookFile.name h) w in
        let w2 := snd (nodefs.Release f w1) in
        let '(posthooked, w3) := PostRelease hook ctx w2 in
        hookFile.Release h w =
          (Ret tt, w3,
           ([EvLog TraceLevel "f.Release"; EvPre file_Release (VerdictFlag prehooked)] ++
            (if prehooked then [EvLog DebugLevel "Release: Prehooked"] else []) ++
            [EvLower file_Release RVoid; EvPost file_Release (VerdictFlag posthooked)] ++
            (if posthooked then [EvLog DebugLevel "Release: Posthooked"] else []))%list)
    | Some f, None =>
        hookFile.Release h w =
          (Ret tt, snd (nodefs.Release f w),
           [EvLog TraceLevel "f.Release"; EvLower file_Release RVoid])
    | None, Some hook =>
        let '((prehooked, ctx), w1) := PreRelease hook (hookFile.name h) w in
        hookFile.Release h w =
          (Panicked, w1,
           ([EvLog TraceLevel "f.Release"; EvPre file_Release (VerdictFlag prehooked)] ++
            (if prehooked then [EvLog DebugLevel "Release: Prehooked"] else []))%list)
    | None, None =>
        hookFile.Release h w = (Panicked, w, [EvLog TraceLevel "f.Release"])
    end.
Proof.
  intros h w. unfold hookFile.Release.
  cbv [bind ret emit panic call callPre callPost callLower callFile log.Trace log.Debug
       pre2 rvoid snd].
  repeat step; cbn [app];
    repeat match goal with u : unit |- _ => destruct u end;
    simplify_eqs; reflexivity.
Qed.

End Release.

Section ReleaseExamples.
#[local] Existing Instance Demo.fuse.

(** [PreRelease] and [PostRelease] both answer [hooked = true]; the
    delegate's release still runs, between the two: the call-counting world
    goes from 1 to 2. *)
Lemma release_calls_delegate_once_witness :
  hookFile.Release {| hookFile.file := Demo.file; hookFile.name := "/x";
                      hookFile.hook := Some Demo.value |} 1 =
    (Ret tt, 2,
     [EvLog TraceLevel "f.Release";
      EvPre file_Release (VerdictFlag true);
      EvLog DebugLevel "Release: Prehooked";
      EvLower file_Release RVoid;
      EvPost file_Release (VerdictFlag true);
      EvLog DebugLevel "Release: Posthooked"]).
Proof.
  exact (release_calls_delegate_once
           {| hookFile.file := Demo.file; hookFile.name := "/x";
              hookFile.hook := Some Demo.value |} 1).
Defined.

(** The same through the mount. *)
Example release_prehooked_still_releases :
  journal (serve (ReqFileRelease 0) Demo.opened) =
    [EvLog TraceLevel "f.Release";
     EvPre file_Release (VerdictFlag true);
     EvLog DebugLevel "Release: Prehooked";
     EvLower file_Release RVoid;
     EvPost file_Release (VerdictFlag true);
     EvLog DebugLevel "Release: Posthooked"] /\
  sys_world (final (serve (ReqFileRelease 0) Demo.opened)) = 2.
Proof. split; reflexivity. Qed.

(** [Release] on the [*hookFile] around the nil file of a failed open
    panics, after [PreRelease]. *)
Example release_of_nil_file_panics :
  hookFile.Release {| hookFile.file := None; hookFile.name := "/x";
                      hookFile.hook := Some Demo.value |} 1 =
    (Panicked, 1,
     [EvLog TraceLevel "f.Release";
      EvPre file_Release (VerdictFlag true);
      EvLog DebugLevel "Release: Prehooked"]).
Proof. reflexivity. Qed.

End ReleaseExamples.

Section Read.
Context {F : Fuse}.
Local Open Scope string_scope.

(** C9.  When [PostRead] answers [hooked = true] with bytes whose length
    differs from that of the bytes the delegate produced, [Read] returns the
    hook's bytes with the status of the hook's error; it logs a warning and
    neither exits nor panics. *)
Theorem read_posthooked_accepts_other_length :
  forall (h : hookFile.t) (dest : list byte) (off : Z) (w : World)
         (lowerRRBuf posthookBuf : list byte) (code : Status) (posthookErr : error),
    In (EvBytes lowerRRBuf code) (snd (hookFile.Read h dest off w)) ->
    In (EvPost file_Read (VerdictData posthookBuf true posthookErr))
       (snd (hookFile.Read h dest off w)) ->
    List.length posthookBuf <> List.length lowerRRBuf ->
    fst (fst (hookFile.Read h dest off w)) =
      Ret (ReadResultData posthookBuf, ToStatus posthookErr) /\
    In (EvLog WarnLevel
          "Read: Posthooked, but posthookBuf length != lowerrRRBuf length. You may get a strange behavior.")
       (snd (hookFile.Read h dest off w)) /\
    abort_logs (snd (hookFile.Read h dest off w)) = 0.
Proof.
  intros h dest off w lowerRRBuf posthookBuf code posthookErr Hb Hp Hlen.
  revert Hb Hp. unfold_methods. repeat step; cbn [app]; intros Hb Hp;
    in_journal Hb; in_journal Hp.
  - exfalso. apply Hlen. apply Nat.eqb_eq. assumption.
  - repeat split; cbn [In]; tauto.
Qed.

End Read.

Section ReadExamples.
#[local] Existing Instance Demo.fuse.

Lemma read_posthooked_accepts_other_length_witness :
  fst (fst (hookFile.Read {| hookFile.file := Demo.file; hookFile.name := "/x";
                             hookFile.hook := Some Demo.value |}
                          [x00; x00] 0%Z 0)) =
    Ret ([x58; x59; x5a], OK).
Proof.
  apply (read_posthooked_accepts_other_length
           {| hookFile.file := Demo.file; hookFile.name := "/x";
              hookFile.hook := Some Demo.value |}
           [x00; x00] 0%Z 0 [x41; x42] [x58; x59; x5a] OK None).
  - vm_compute. tauto.
  - vm_compute. tauto.
  - cbn. discriminate.
Defined.

End ReadExamples.

Section Lookups.
Context {F : Fuse}.
Local Open Scope string_scope.

(** C10.  When the Before hook of GetAttr, GetXAttr, ListXAttr or Readlink
    answers [hooked = true], the method returns an empty result (a nil
    attribute, no bytes, no names, the empty string) with the status of the
    hook's error, the delegate not called: the outside world is left as the
    hook left it.  When that error is nil the status is [OK], [fuse.ToStatus]
    mapping nil to [OK]. *)
Theorem prehooked_lookup_returns_empty :
  forall (req : Request) (s : Sys) (e : error) (ctx : HookContext) (w' : World),
    ToStatus None = OK ->
    before req s = Some (Verdict true e, ctx, w') ->
    match req with
    | ReqGetAttr _ _ =>
        outcome (serve req s) = Ret (RAttr None (ToStatus e)) /\
        final (serve req s) = with_world s w' /\
        (e = None -> outcome (serve req s) = Ret (RAttr None OK))
    | ReqGetXAttr _ _ _ =>
        outcome (serve req s) = Ret (RData [] (ToStatus e)) /\
        final (serve req s) = with_world s w' /\
        (e = None -> outcome (serve req s) = Ret (RData [] OK))
    | ReqListXAttr _ _ =>
        outcome (serve req s) = Ret (RNames [] (ToStatus e)) /\
        final (serve req s) = with_world s w' /\
        (e = None -> outcome (serve req s) = Ret (RNames [] OK))
    | ReqReadlink _ _ =>
        outcome (serve req s) = Ret (RLink "" (ToStatus e)) /\
        final (serve req s) = with_world s w' /\
        (e = None -> outcome (serve req s) = Ret (RLink "" OK))
    | _ => True
    end.
Proof.
  intros req s e ctx w' Hnil. destruct s as [w h files].
  destruct req; try (intros _; exact I);
    unfold_served; repeat step; cbn [app]; intros Hb; simplify_eqs;
    (split; [reflexivity | split; [reflexivity | intros ->; rewrite Hnil; reflexivity]]).
Qed.

End Lookups.

Section LookupsExamples.
#[local] Existing Instance Demo.fuse.

Lemma prehooked_lookup_returns_empty_witness :
  outcome (serve (ReqGetAttr "/veto" None) Demo.fresh) = Ret (RAttr None OK) /\
  final (serve (ReqGetAttr "/veto" None) Demo.fresh) = Demo.fresh.
Proof.
  pose proof (prehooked_lookup_returns_empty (ReqGetAttr "/veto" None) Demo.fresh None 0 0
                eq_refl eq_refl) as H.
  split.
  - exact (proj2 (proj2 H) eq_refl).
  - exact (proj1 (proj2 H)).
Defined.

End LookupsExamples.

(** * Further properties of the interception protocol *)

Section Protocol.
Context {F : Fuse}.

(** X1.  A hook that declines is transparent: when the Before hook lets the
    request through, the delegate replies, and the After hook answers
    [hooked = false], the method returns what the delegate returned, result
    and status untouched ([Open] and [Create] return the [*hookFile] around
    the delegate's file), and the outside world is left as the After hook
    left it. *)
Theorem declined_request_returns_delegate_reply :
  forall (req : Request) (s : Sys) (a0 : Answer) (ctx : HookContext) (w1 : World)
         (lowered : Reply) (w2 : World) (a : Answer) (w3 : World),
    before req s = Some (a0, ctx, w1) ->
    hooked a0 = false \/ method_of req = file_Release ->
    direct req (with_world s w1) = (Ret lowered, w2) ->
    after req s lowered ctx w2 = Some (a, w3) ->
    hooked a = false ->
    outcome (serve req s) = wrapped s (Ret lowered) /\
    final (serve req s) =
      {| sys_world := w3; sys_fs := sys_fs s;
         sys_files := sys_files s ++ new_files s req lowered |}.
Proof.
  intros req s a0 ctx w1 lowered w2 a w3. destruct s as [w h files].
  destruct req; unfold_served; repeat step; cbn [app];
    intros Hb Hd Hl Ha Hh; simplify_eqs;
    cbn [hooked] in Hd; destruct Hd as [Hd | Hd]; try discriminate Hd;
    use_after Ha; cbn [hooked] in Hh; simplify_eqs.
  all: cbn [wrapped new_files opened_name sys_files sys_fs];
    rewrite ?app_nil_r; split; reflexivity.
Qed.

(** X2.  The calls of one request follow one protocol.  In order they are:
    the delegate alone; the delegate and then [Init] ([OnMount]); the Before
    hook alone; the Before hook, the delegate, the After hook; or, for a
    read, the Before hook, the delegate, the read of the delegate's bytes,
    and the After hook.  A request that stops elsewhere has panicked: with
    no call made, after the delegate, or after the read of its bytes. *)
Theorem request_follows_call_protocol :
  forall (req : Request) (s : Sys),
    In (call_kinds (journal (serve req s)))
       [ []; [KLower]; [KLower; KInit]; [KPre]; [KPre; KLower]; [KPre; KLower; KPost];
         [KPre; KLower; KBytes]; [KPre; KLower; KBytes; KPost] ] /\
    (In (call_kinds (journal (serve req s))) [ []; [KPre; KLower]; [KPre; KLower; KBytes] ] ->
     outcome (serve req s) = Panicked).
Proof.
  intros req s.
  run_request req; (split; [cbn; tauto |]).
  all: cbn [call_kinds call_kind In]; intros H;
    repeat match type of H with _ \/ _ => destruct H as [H | H] end;
    try contradiction; try discriminate H; reflexivity.
Qed.

(** X3.  No filesystem-scope request panics in a method of [*HookFs]:
    [newHookFile] never returns an error, so the [log.Panic] of [Open] and
    of [Create] is never reached. *)
Theorem fs_request_never_panics :
  forall (req : Request) (s : Sys),
    is_fs_scope req = true ->
    outcome (serve req s) <> Panicked.
Proof.
  intros req s. unfold is_fs_scope.
  run_request req; intros H; try discriminate H; discriminate.
Qed.

(** X5.  Once the delegate's [Open] or [Create] was called, the caller gets
    a new [*hookFile] around the file the delegate returned, whatever status
    the delegate returned with it; the status is the delegate's, or the
    After hook's when it answered [hooked = true]. *)
Theorem open_wraps_whatever_the_delegate_returns :
  forall (req : Request) (s : Sys) (m : Method) (lowerFile : nodefs.File) (lowerCode : Status),
    In (EvLower m (RFile (LowerFile lowerFile) lowerCode)) (journal (serve req s)) ->
    exists code : Status,
      outcome (serve req s) = Ret (RFile (HookFile (List.length (sys_files s))) code) /\
      sys_files (final (serve req s)) =
        sys_files s ++ [{| hookFile.file := lowerFile; hookFile.name := opened_name req;
                           hookFile.hook := HookFs.hook (sys_fs s) |}] /\
      (code = lowerCode \/
       exists a : Answer,
         In (EvPost m a) (journal (serve req s)) /\ hooked a = true /\
         code = ToStatus (answer_err a)).
Proof.
  intros req s m lowerFile lowerCode.
  run_request req; intros Hin; in_journal Hin;
    eexists; (split; [reflexivity | split; [reflexivity |]]);
    first [ left; reflexivity
          | right; eexists; split; [cbn [In]; tauto | split; reflexivity] ].
Qed.

(** X6.  The [*HookFs] is changed by one thing only: an [OnMount] whose
    [Init] fails sets its hook reference to nil.  After any other request,
    and after an [OnMount] whose [Init] succeeds or is not implemented, the
    [*HookFs] is what it was; and [OnMount] itself always returns. *)
Theorem hookfs_changes_only_on_failed_init :
  forall (req : Request) (s : Sys),
    sys_fs (final (serve req s)) = fs_after (journal (serve req s)) (sys_fs s) /\
    (init_failed (journal (serve req s)) = true -> method_of req = fs_OnMount) /\
    (method_of req = fs_OnMount -> outcome (serve req s) = Ret RVoid).
Proof.
  intros req s. destruct s as [w h files].
  run_request req; cbn [sys_fs fs_after init_failed existsb orb];
    (split; [reflexivity | split; intros H; (reflexivity || discriminate H)]).
Qed.

(** X10.  The process never exits after the delegate was touched: when a
    request ends in [log.Fatal], no delegate method and no After hook was
    called, and no [*hookFile] was created. *)
Theorem fatal_exit_precedes_delegate :
  forall (req : Request) (s : Sys),
    outcome (serve req s) = Exited ->
    lower_calls (journal (serve req s)) = 0 /\
    post_calls (journal (serve req s)) = 0 /\
    sys_files (final (serve req s)) = sys_files s /\
    sys_fs (final (serve req s)) = sys_fs s.
Proof.
  intros req s. destruct s as [w h files].
  run_request req; intros H; try discriminate H; repeat split; reflexivity.
Qed.

End Protocol.

Section Handles.
Context {F : Fuse}.
Local Open Scope string_scope.

(** X4.  A read that [PreRead] lets through reads the delegate's result
    into memory before [PostRead] is called: [Read] asks the result for its
    size, makes a zeroed buffer of that size, and has the result fill it.
    [Read] panics, [PostRead] not called, when the delegate returned the nil
    result, when the size is negative, and when filling the buffer reports a
    status other than OK.  Otherwise [PostRead] is handed the delegate's
    status and those bytes and, when it answers [hooked = false], [Read]
    returns the delegate's result and status. *)
Theorem read_hook_materialises_delegate_bytes :
  forall (h : hookFile.t) (f : nodefs.Methods) (hook : HookOnRead) (dest : list byte) (off : Z)
         (w w1 w2 : World) (prehookBuf : list byte) (ctx : HookContext) (e : error)
         (lowerRR : ReadResult) (lowerCode : Status),
    hookFile.file h = Some f ->
    type_assert asHookOnRead (hookFile.hook h) = Some hook ->
    PreRead hook (hookFile.name h) (Z.of_nat (List.length dest)) off w =
      ((prehookBuf, false, ctx, e), w1) ->
    nodefs.Read f dest off w1 = ((lowerRR, lowerCode), w2) ->
    let called :=
      [EvLog TraceLevel "f.Read"; EvPre file_Read (VerdictData prehookBuf false e);
       EvLower file_Read (RRead lowerRR lowerCode)] in
    (rr_nil lowerRR = true \/ (rr_Size lowerRR < 0)%Z ->
       hookFile.Read h dest off w = (Panicked, w2, called)) /\
    (rr_nil lowerRR = false ->
     (0 <= rr_Size lowerRR)%Z ->
     forall (lowerRRBuf : list byte) (status : Status) (w3 : World),
       rr_Bytes lowerRR (repeat x00 (Z.to_nat (rr_Size lowerRR))) w2 =
         ((lowerRRBuf, status), w3) ->
       (status <> OK ->
          hookFile.Read h dest off w =
            (Panicked, w3,
             (called ++ [EvBytes lowerRRBuf status;
                         EvLog PanicLevel "lowerRR.Bytes() should not cause an error"])%list)) /\
       (status = OK ->
        forall (posthookBuf : list byte) (e' : error) (w4 : World),
          PostRead hook lowerCode lowerRRBuf ctx w3 = ((posthookBuf, false, e'), w4) ->
          hookFile.Read h dest off w =
            (Ret (lowerRR, lowerCode), w4,
             (called ++ [EvBytes lowerRRBuf OK;
                         EvPost file_Read (VerdictData posthookBuf false e')])%list))).
Proof.
  intros h f hook dest off w w1 w2 prehookBuf ctx e lowerRR lowerCode Hfile Hhook Hpre Hlow called.
  unfold hookFile.Read. rewrite Hfile, Hhook.
  cbv [bind ret emit panic call callPre callPost callLower callFile log.Trace log.Debug
       log.Panic pre4 post3 uncurry hookFile.Size hookFile.make].
  rewrite Hpre, Hlow. split.
  - intros [Hnil | Hneg].
    + rewrite Hnil. reflexivity.
    + destruct (rr_nil lowerRR); [reflexivity |].
      apply Z.ltb_lt in Hneg. rewrite Hneg. reflexivity.
  - intros Hnil Hsize lowerRRBuf status w3 Hbytes.
    rewrite Hnil. apply Z.ltb_ge in Hsize. rewrite Hsize, Hbytes. split.
    + intros Hne. apply Z.eqb_neq in Hne. rewrite Hne. reflexivity.
    + intros -> posthookBuf e' w4 Hpost. rewrite Z.eqb_refl, Hpost. reflexivity.
Qed.

(** X8.  [Fsync] hands [PreFsync] the flags converted to [uint32], their
    value modulo 2^32, and hands the delegate the flags as they came.  When
    [PreFsync] lets the call through, the delegate's [Fsync] runs on the
    unconverted flags in the world the hook left, [PostFsync] is handed the
    delegate's status, and the status returned is the delegate's, or the one
    of [PostFsync]'s error when it answers [hooked = true]. *)
Theorem fsync_hook_sees_flags_modulo_2_32 :
  forall (h : hookFile.t) (f : nodefs.Methods) (hook : HookOnFsync) (flags : Z)
         (w w1 w2 w3 : World) (ctx : HookContext) (e e' : error)
         (lowerCode : Status) (posthooked : bool),
    hookFile.file h = Some f ->
    type_assert asHookOnFsync (hookFile.hook h) = Some hook ->
    PreFsync hook (hookFile.name h) (flags mod 2 ^ 32)%Z w = ((false, ctx, e), w1) ->
    nodefs.Fsync f flags w1 = (lowerCode, w2) ->
    PostFsync hook lowerCode ctx w2 = ((posthooked, e'), w3) ->
    hookFile.Fsync h flags w =
      (Ret (if posthooked then ToStatus e' else lowerCode), w3,
       ([EvLog TraceLevel "f.Fsync"; EvPre file_Fsync (Verdict false e);
         EvLower file_Fsync (RStatus lowerCode);
         EvPost file_Fsync (Verdict posthooked e')] ++
        (if posthooked then [EvLog DebugLevel "Fsync: Posthooked"] else []))%list).
Proof.
  intros h f hook flags w w1 w2 w3 ctx e e' lowerCode posthooked Hfile Hhook Hpre Hlow Hpost.
  unfold hookFile.Fsync. rewrite Hfile, Hhook.
  cbv [bind ret emit call callPre callPost callLower callFile log.Trace log.Debug
       pre3 post2 hookFile.uint32].
  rewrite Hpre, Hlow, Hpost. destruct posthooked; reflexivity.
Qed.

End Handles.

Section Independence.
Context {F : Fuse}.

(** X7.  The hook pairs are independent: a filesystem-scope request depends
    on the installed hook only through the pair of its own method.  With
    another hook installed that answers that method's type assertion alike,
    the request returns the same reply, makes the same hook and delegate
    calls with the same answers, and leaves the same world; and, [Open] and
    [Create] apart, whose new [*hookFile] captures the installed hook, the
    same handles. *)
Theorem request_depends_on_own_pair_only :
  forall (req : Request) (s : Sys) (hook' : Hook),
    is_fs_scope req = true ->
    same_capability (method_of req) (HookFs.hook (sys_fs s)) hook' ->
    outcome (serve req (with_hook s hook')) = outcome (serve req s) /\
    calls (journal (serve req (with_hook s hook'))) = calls (journal (serve req s)) /\
    sys_world (final (serve req (with_hook s hook'))) = sys_world (final (serve req s)) /\
    (method_of req <> fs_Open -> method_of req <> fs_Create ->
     sys_files (final (serve req (with_hook s hook'))) = sys_files (final (serve req s))).
Proof.
  intros req s hook' Hscope Hsame.
  destruct s as [w [orig mnt fsname lowerfs hook] files].
  destruct req; try discriminate Hscope; clear Hscope;
    cbn [method_of same_capability sys_fs HookFs.hook] in Hsame;
    unfold_methods;
    cbn [with_hook with_fs sys_fs sys_world sys_files HookFs.hook HookFs.fs
         HookFs.Original HookFs.Mountpoint HookFs.FsName];
    try rewrite <- Hsame; repeat step;
    (split; [reflexivity | split; [reflexivity | split; [reflexivity |]]]);
    intros H1 H2; first [reflexivity | congruence].
Qed.

End Independence.

Section ProtocolExamples.
#[local] Existing Instance Demo.fuse.

(** A read on which both hooks decline returns the delegate's two bytes,
    after the delegate's call and no other: the call-counting world goes
    from 0 to 1. *)
Lemma declined_request_returns_delegate_reply_witness :
  outcome (serve (ReqFileRead 0 [x00; x00] 0%Z) Declining.mount) =
    Ret (RRead [x41; x42] OK) /\
  final (serve (ReqFileRead 0 [x00; x00] 0%Z) Declining.mount) =
    {| sys_world := 1; sys_fs := sys_fs Declining.mount;
       sys_files := sys_files Declining.mount ++ [] |}.
Proof.
  apply (declined_request_returns_delegate_reply
           (ReqFileRead 0 [x00; x00] 0%Z) Declining.mount
           (VerdictData (F := Demo.fuse) [] false None) 0 0
           (RRead (F := Demo.fuse) [x41; x42] OK) 1
           (VerdictData (F := Demo.fuse) [x41; x42] false None) 1).
  - reflexivity.
  - left. reflexivity.
  - reflexivity.
  - reflexivity.
  - reflexivity.
Defined.

(** A declined read, call by call. *)
Example declined_read_calls :
  call_kinds (journal (serve (ReqFileRead 0 [x00; x00] 0%Z) Declining.mount)) =
    [KPre; KLower; KBytes; KPost].
Proof. reflexivity. Qed.

(** A filesystem-scope request that exits does not panic. *)
Lemma fs_request_never_panics_witness :
  outcome (serve (ReqMkdir "/new" 493%Z None) Demo.fresh) <> Panicked /\
  outcome (serve (ReqOpen "/y" 0%Z None) Declining.mount) <> Panicked.
Proof.
  split.
  - apply (fs_request_never_panics (ReqMkdir "/new" 493%Z None) Demo.fresh). reflexivity.
  - apply (fs_request_never_panics (ReqOpen "/y" 0%Z None) Declining.mount). reflexivity.
Defined.

(** The delegate's [Open] fails with ENOENT; the caller still gets a
    [*hookFile], with that status. *)
Lemma open_wraps_whatever_the_delegate_returns_witness :
  exists code : Status,
    outcome (serve (ReqOpen "/y" 0%Z None) Declining.mount) = Ret (RFile (HookFile 1) code) /\
    sys_files (final (serve (ReqOpen "/y" 0%Z None) Declining.mount)) =
      sys_files Declining.mount ++
        [{| hookFile.file := Probe.file S [x41; x42]; hookFile.name := "/y";
            hookFile.hook := HookFs.hook (sys_fs Declining.mount) |}] /\
    (code = 2%Z \/
     exists a : Answer,
       In (EvPost fs_Open a) (journal (serve (ReqOpen "/y" 0%Z None) Declining.mount)) /\
       hooked a = true /\ code = ToStatus (answer_err a)).
Proof.
  apply (open_wraps_whatever_the_delegate_returns
           (ReqOpen "/y" 0%Z None) Declining.mount fs_Open
           (Probe.file (F := Demo.fuse) S [x41; x42]) 2%Z).
  vm_compute. tauto.
Defined.

Example failed_open_returns_wrapper :
  outcome (serve (ReqOpen "/y" 0%Z None) Declining.mount) = Ret (RFile (HookFile 1) 2%Z).
Proof. reflexivity. Qed.

Lemma hookfs_changes_only_on_failed_init_witness :
  sys_fs (final (serve (ReqOnMount None) Demo.fresh)) = without_hook (sys_fs Demo.fresh) /\
  sys_fs (final (serve (ReqOnMount None) Declining.mount)) = sys_fs Declining.mount.
Proof.
  split.
  - exact (proj1 (hookfs_changes_only_on_failed_init (ReqOnMount None) Demo.fresh)).
  - exact (proj1 (hookfs_changes_only_on_failed_init (ReqOnMount None) Declining.mount)).
Defined.

Lemma fatal_exit_precedes_delegate_witness :
  lower_calls (journal (serve (ReqMkdir "/new" 493%Z None) Demo.fresh)) = 0 /\
  post_calls (journal (serve (ReqMkdir "/new" 493%Z None) Demo.fresh)) = 0 /\
  sys_files (final (serve (ReqMkdir "/new" 493%Z None) Demo.fresh)) = sys_files Demo.fresh /\
  sys_fs (final (serve (ReqMkdir "/new" 493%Z None) Demo.fresh)) = sys_fs Demo.fresh.
Proof.
  apply (fatal_exit_precedes_delegate (ReqMkdir "/new" 493%Z None) Demo.fresh).
  reflexivity.
Defined.

(** Chmod is served alike with the demo hook, which has no chmod pair, and
    with no hook at all. *)
Lemma request_depends_on_own_pair_only_witness :
  outcome (serve (ReqChmod "/x" 420%Z None) (with_hook Demo.fresh None)) =
    outcome (serve (ReqChmod "/x" 420%Z None) Demo.fresh) /\
  calls (journal (serve (ReqChmod "/x" 420%Z None) (with_hook Demo.fresh None))) =
    calls (journal (serve (ReqChmod "/x" 420%Z None) Demo.fresh)) /\
  sys_world (final (serve (ReqChmod "/x" 420%Z None) (with_hook Demo.fresh None))) =
    sys_world (final (serve (ReqChmod "/x" 420%Z None) Demo.fresh)) /\
  (fs_Chmod <> fs_Open -> fs_Chmod <> fs_Create ->
   sys_files (final (serve (ReqChmod "/x" 420%Z None) (with_hook Demo.fresh None))) =
     sys_files (final (serve (ReqChmod "/x" 420%Z None) Demo.fresh))).
Proof.
  apply (request_depends_on_own_pair_only (ReqChmod "/x" 420%Z None) Demo.fresh None).
  - reflexivity.
  - reflexivity.
Defined.

(** With another hook installed, the [*hookFile] an [Open] creates is
    another: it captures the installed hook. *)
Example open_captures_installed_hook :
  same_capability fs_Open (HookFs.hook (sys_fs Demo.fresh)) None /\
  sys_files (final (serve (ReqOpen "/x" 0%Z None) (with_hook Demo.fresh None))) <>
    sys_files (final (serve (ReqOpen "/x" 0%Z None) Demo.fresh)).
Proof. split; [reflexivity | vm_compute; discriminate]. Qed.

(** The fsync hook of the probe declines when handed 4294967295: flags -1
    reach it as that value, and the delegate is called with -1:
    the world goes from 0 to 1. *)
Lemma fsync_hook_sees_flags_modulo_2_32_witness :
  hookFile.Fsync Declining.handle (-1)%Z 0 =
    (Ret OK, 1,
     [EvLog TraceLevel "f.Fsync"; EvPre file_Fsync (Verdict false None);
      EvLower file_Fsync (RStatus OK); EvPost file_Fsync (Verdict false None)] ++ []).
Proof.
  exact (fsync_hook_sees_flags_modulo_2_32 Declining.handle Declining.object Declining.onFsync (-1)%Z
           0 0 1 1 0 None None OK false eq_refl eq_refl eq_refl eq_refl eq_refl).
Defined.

Example fsync_wraps_negative_flags : hookFile.uint32 (-1) = 4294967295%Z.
Proof. reflexivity. Qed.

(** A handle that was never issued. *)
Example dangling_handle_panics :
  outcome (serve (ReqFileFlush 7) Demo.fresh) = Panicked.
Proof. reflexivity. Qed.

(** The handle of a failed open whose delegate returned no file: a request
    on it panics where the delegate's file is first used. *)
Example handle_of_nil_file_panics :
  outcome (serve (ReqFileFlush 0)
             {| sys_world := 0; sys_fs := Demo.hookfs;
                sys_files := [{| hookFile.file := None; hookFile.name := "/x";
                                 hookFile.hook := None |}] |}) = Panicked.
Proof. reflexivity. Qed.

End ProtocolExamples.

Section FaultyExamples.
#[local] Existing Instance Faulty.fuse.

(** Over a go-fuse whose read result cannot be read into memory, a read
    that the hook lets through panics after [Bytes], [PostRead] not
    called. *)
Lemma read_hook_materialises_delegate_bytes_witness :
  hookFile.Read Faulty.handle [x00; x00] 0%Z 0 =
    (Panicked, 1,
     [EvLog TraceLevel "f.Read"; EvPre file_Read (VerdictData [] false None);
      EvLower file_Read (RRead [x41; x42] OK)] ++
     [EvBytes [] 5%Z; EvLog PanicLevel "lowerRR.Bytes() should not cause an error"]).
Proof.
  refine (proj1 (proj2 (read_hook_materialises_delegate_bytes
                          Faulty.handle Faulty.object Faulty.onRead [x00; x00] 0%Z 0 0 1
                          [] 0 None [x41; x42] OK eq_refl eq_refl eq_refl eq_refl)
                   eq_refl _ [] 5%Z 1 eq_refl) _).
  - vm_compute. discriminate.
  - discriminate.
Defined.

End FaultyExamples.
